(** * smoothswap: the DCA scheduling and swap-execution engine

    A shallow embedding of [src/hooks/useDCA.ts], [src/services/realSwapService.ts],
    [src/config/constants.ts] and [src/types/index.ts], with the slider's
    drag handler of [src/components/GameSlider.tsx] and the manual swap of
    [src/components/InvisibleSwapTransaction.tsx].

    JavaScript numbers are IEEE-754 binary64 values, so they are embedded as
    Rocq's primitive [float]s and every arithmetic step of the source is the
    same rounding step here.  Strings are [string]s of bytes. *)

From Stdlib Require Import ZArith List String Ascii Bool Lia.
From Stdlib Require Import PrimFloat SpecFloat FloatOps FloatAxioms Uint63.
From Stdlib Require Import DecimalString.
Import ListNotations.

Local Open Scope string_scope.
Local Open Scope Z_scope.

Set Warnings "-inexact-float".

(** ** The JavaScript built-ins the source relies on *)

Module JS.

Definition number := float.
Bind Scope float_scope with number.

(** The exact integer [n] as a number; exact for |n| < 2^53. *)
Definition of_Z (n : Z) : number :=
  SF2Prim (binary_normalize prec emax n 0 false).

(** [Some n] when the number is finite and integral with value [n]. *)
Definition integer_value (x : number) : option Z :=
  match Prim2SF x with
  | S754_zero _ => Some 0
  | S754_finite s m e =>
      let v := if s then Z.neg m else Z.pos m in
      if 0 <=? e then Some (v * 2 ^ e)
      else if (v mod 2 ^ (- e)) =? 0 then Some (v / 2 ^ (- e)) else None
  | _ => None
  end.

(** [Math.round]: the integer closest to [x], ties towards +Infinity;
    NaN, the infinities and the zeros are returned as they are, and a
    result of zero keeps the sign of [x]. *)
Definition Math_round (x : number) : number :=
  match Prim2SF x with
  | S754_finite s m e =>
      if 0 <=? e then x
      else
        let d := 2 ^ (- e) in
        let v := if s then Z.neg m else Z.pos m in
        let n := (2 * v + d) / (2 * d) in
        if n =? 0 then (if s then neg_zero else zero) else of_Z n
  | _ => x
  end.

(** [Math.floor], with the same conventions. *)
Definition Math_floor (x : number) : number :=
  match Prim2SF x with
  | S754_finite s m e =>
      if 0 <=? e then x
      else
        let n := (if s then Z.neg m else Z.pos m) / 2 ^ (- e) in
        if n =? 0 then (if s then neg_zero else zero) else of_Z n
  | _ => x
  end.

(** [Math.max] of two numbers: NaN if either is NaN, and +0 above -0. *)
Definition Math_max (x y : number) : number :=
  if is_nan x then x
  else if is_nan y then y
  else if (x <? y)%float then y
  else if (y <? x)%float then x
  else if get_sign x then y else x.

(** *** Decimal text and numbers *)

(** The number nearest to [m * 10^e] (ties to even), with the sign [neg]:
    the value a decimal literal denotes. *)
Definition of_decimal (neg : bool) (m e : Z) : number :=
  if m =? 0 then (if neg then neg_zero else zero)
  else if 0 <=? e then
    SF2Prim (binary_normalize prec emax (if neg then - (m * 10 ^ e) else m * 10 ^ e) 0 neg)
  else
    let '(q, e', l) := SFdiv_core_binary prec emax m 0 (10 ^ (- e)) 0 in
    SF2Prim (binary_round_aux prec emax neg q e' l).

Definition is_digit (c : ascii) : bool :=
  ((48 <=? nat_of_ascii c) && (nat_of_ascii c <=? 57))%nat.

Definition digit_value (c : ascii) : Z := Z.of_nat (nat_of_ascii c - 48).

Definition is_space (c : ascii) : bool :=
  let n := nat_of_ascii c in
  ((n =? 32) || ((9 <=? n) && (n <=? 13)))%nat.

Fixpoint skip_spaces (s : string) : string :=
  match s with
  | String c r => if is_space c then skip_spaces r else s
  | EmptyString => s
  end.

(** Leading decimal digits of [s]: their value (on top of [acc]), how many
    there are, and the rest of the text. *)
Fixpoint read_digits (s : string) (acc : Z) (n : Z) : Z * Z * string :=
  match s with
  | String c r =>
      if is_digit c then read_digits r (10 * acc + digit_value c) (n + 1)
      else (acc, n, s)
  | EmptyString => (acc, n, s)
  end.

(** The exponent part [e[+-]digits], when the text starts with one. *)
Definition read_exponent (s : string) : Z :=
  match s with
  | String c r =>
      if (nat_of_ascii c =? 101)%nat || (nat_of_ascii c =? 69)%nat then
        let '(neg, r') :=
          match r with
          | String "-" r' => (true, r')
          | String "+" r' => (false, r')
          | _ => (false, r)
          end in
        let '(v, n, _) := read_digits r' 0 0 in
        if n =? 0 then 0 else if neg then - v else v
      else 0
  | EmptyString => 0
  end.

(** [parseFloat]: leading (ASCII) white space is skipped and the longest
    prefix that is a decimal literal is converted; NaN when there is none. *)
Definition parseFloat (s : string) : number :=
  let s := skip_spaces s in
  let '(neg, s) :=
    match s with
    | String "-" r => (true, r)
    | String "+" r => (false, r)
    | _ => (false, s)
    end in
  if prefix "Infinity" s then (if neg then neg_infinity else infinity)
  else
    let '(i, ni, r) := read_digits s 0 0 in
    let '(m, nf, r) :=
      match r with
      | String "." r' =>
          let '(m, nf, r'') := read_digits r' i 0 in
          if (ni =? 0) && (nf =? 0) then (i, 0, r) else (m, nf, r'')
      | _ => (i, 0, r)
      end in
    if (ni =? 0) && (nf =? 0) then nan
    else of_decimal neg m (read_exponent r - nf).

(** The decimal digits of [n >= 0], at least [d + 1] of them, with a point
    before the last [d]. *)
Definition pad_zeros (k : nat) (s : string) : string :=
  String.concat "" (repeat "0" (k - String.length s)) ++ s.

Definition digits_of (n : Z) : string := NilZero.string_of_uint (N.to_uint (Z.to_N n)).

Definition fixed_digits (n : Z) (d : nat) : string :=
  let ds := pad_zeros (S d) (digits_of n) in
  let k := (String.length ds - d)%nat in
  match d with
  | O => ds
  | _ => substring 0 k ds ++ "." ++ substring k d ds
  end.

(** [a / b] rounded to the nearest integer, ties to even. *)
Definition nearest_quotient (a b : Z) : Z :=
  let q := a / b in
  let r := a mod b in
  if 2 * r <? b then q
  else if b <? 2 * r then q + 1
  else if Z.even q then q else q + 1.

(** [Number::toString] of [x >= 1e21], whose value is the integer [n]: the
    fewest digits that still denote [x], in exponent notation. *)
Definition exponent_notation (x : number) (n : Z) : string :=
  let len := Z.of_nat (String.length (digits_of n)) in
  let digits k := nearest_quotient n (10 ^ (len - k)) in
  let denotes k := PrimFloat.Leibniz.eqb (of_decimal false (digits k) (len - k)) x in
  let k := match find denotes (map Z.of_nat (seq 1 17)) with
           | Some k => k
           | None => 17
           end in
  let '(ds, e) := if digits k =? 10 ^ k then ("1", len)
                  else (digits_of (digits k), len - 1) in
  match ds with
  | String c EmptyString => ds
  | String c rest => String c ("." ++ rest)
  | EmptyString => ds
  end ++ "e+" ++ digits_of e.

(** [x.toFixed(d)]: below 1e21 the exact value of [x] rounded to [d]
    decimals, ties away from zero; from 1e21 on, [x] as [String(x)] prints
    it. *)
Definition toFixed (x : number) (d : nat) : string :=
  match Prim2SF x with
  | S754_nan => "NaN"
  | S754_infinity s => if s then "-Infinity" else "Infinity"
  | S754_zero _ => fixed_digits 0 d
  | S754_finite s m e =>
      (if s then "-" else "") ++
      (if (0 <=? e) && (10 ^ 21 <=? Z.pos m * 2 ^ e)
       then exponent_notation (abs x) (Z.pos m * 2 ^ e)
       else
         let num := Z.pos m * 10 ^ Z.of_nat d in
         let n := if 0 <=? e then num * 2 ^ e
                  else (2 * num + 2 ^ (- e)) / (2 * 2 ^ (- e)) in
         fixed_digits n d)
  end.

(** *** Strings *)

Definition lower_ascii (c : ascii) : ascii :=
  let n := nat_of_ascii c in
  if ((65 <=? n) && (n <=? 90))%nat then ascii_of_nat (n + 32) else c.

(** [s.toLowerCase()], on the ASCII letters. *)
Fixpoint toLowerCase (s : string) : string :=
  match s with
  | EmptyString => EmptyString
  | String c r => String (lower_ascii c) (toLowerCase r)
  end.

(** [s.slice(a, b)] for [0 <= a <= b]. *)
Definition slice (s : string) (a b : nat) : string := substring a (b - a) s.

(** [s.includes(pat)] *)
Fixpoint includes (s pat : string) : bool :=
  prefix pat s ||
  match s with
  | EmptyString => false
  | String _ r => includes r pat
  end.

End JS.

Import JS.

(** ** [src/types/index.ts] *)

Record Token := {
  address : string;
  symbol : string;
  name : string;
  decimals : number;
  image : option string;
  balance : option string;
  fiatValue : option string
}.

Record DCAConfig := {
  sourceToken : Token;
  targetToken : Token;
  frequency : number;    (* in milliseconds *)
  percentage : number;
  isActive : bool;
  nextSwapIn : number    (* milliseconds until next swap *)
}.

(** The optional fields are [None] when the object literal leaves them out;
    [isReal], [isEnhancedSimulation] and [note] are the extra fields that
    [realSwapService.ts] puts on its results. *)
Record SwapResult := {
  success : bool;
  txHash : option string;
  error : option string;
  amountIn : string;
  amountOut : string;
  price : option string;
  isReal : option bool;
  isEnhancedSimulation : option bool;
  note : option string
}.

Inductive FrequencyTier := days | hours | minutes | seconds.

Definition FrequencyTier_eqb (a b : FrequencyTier) : bool :=
  match a, b with
  | days, days | hours, hours | minutes, minutes | seconds, seconds => true
  | _, _ => false
  end.

Record SliderTier := {
  tier : FrequencyTier;
  min : number;   (* in seconds *)
  max : number;   (* in seconds *)
  label : string
}.

(** ** [src/config/constants.ts] *)

Definition SLIDER_TIERS : list SliderTier :=
  [ {| tier := days;    min := 86400; max := 2592000; label := "Days" |};
    {| tier := hours;   min := 3600;  max := 86400;   label := "Hours" |};
    {| tier := minutes; min := 60;    max := 3600;    label := "Minutes" |};
    {| tier := seconds; min := 1;     max := 60;      label := "Seconds" |} ].

Definition base_token (a sy n : string) (d : number) (i : string) : Token :=
  {| address := a; symbol := sy; name := n; decimals := d; image := Some i;
     balance := None; fiatValue := None |}.

Definition USDC_LOGO : string :=
  "https://images.ctfassets.net/q5ulk4bp65r7/3O9sjrr3HBZN74XICN6E6E/89b2b2f1e2e7f05c33b7adcb3d8b3e7d/USDC_Logo.svg".

Definition BASE_TOKENS : list Token :=
  [ base_token "0x833589fCD6eDb6E08f4c7C32D4f71b54bdA02913" "USDC" "USD Coin" 6 USDC_LOGO;
    base_token "0x4200000000000000000000000000000000000006" "ETH" "Ethereum" 18
      "https://assets.coingecko.com/coins/images/279/large/ethereum.png";
    base_token "0x50c5725949A6F0c72E6C4a641F24049A917DB0Cb" "DAI" "Dai Stablecoin" 18
      "https://assets.coingecko.com/coins/images/9956/large/Badge_Dai.png";
    base_token "0xd9aAEc86B65D86f6A7B5B1b0c42FFA531710b6CA" "USDbC" "USD Base Coin" 6 USDC_LOGO ].

Definition DEFAULT_SOURCE_TOKEN : Token := nth 0 BASE_TOKENS (base_token "" "" "" 0 "").
Definition DEFAULT_TARGET_TOKEN : Token := nth 1 BASE_TOKENS (base_token "" "" "" 0 "").

(** ** [src/hooks/useDCA.ts]: the frequency mapper *)

Definition calculateFrequency (value : number) (t : FrequencyTier) : number :=
  match find (fun c => FrequencyTier_eqb (tier c) t) SLIDER_TIERS with
  | None => 3600000%float
  | Some tierConfig =>
      let normalizedValue := (value / 100)%float in
      let range := (max tierConfig - min tierConfig)%float in
      let frequency := (min tierConfig + (range * (1 - normalizedValue)))%float in
      Math_round (frequency * 1000)%float
  end.


(** ** [src/services/realSwapService.ts] *)

(** *** Effects

    The service talks to the price API, to the wallet's [sendTransaction]
    and to [Math.random]; whatever is thrown is either an [Error] with a
    message or some other value.  A computation threads the log of the
    external calls made so far and ends normally or abruptly. *)

Inductive Thrown :=
| ErrorObject (message : string)
| OtherValue.

Inductive Completion (A : Type) :=
| Normal (a : A)
| Abrupt (t : Thrown).
Arguments Normal {A} a.
Arguments Abrupt {A} t.

(** What one price request ends in: a thrown error (network failure, bad
    JSON), a response whose [ok] is false, or the value found at
    [data[coinId]?.usd]. *)
Inductive PriceData := UsdNumber (p : number) | UsdOther.
Inductive FetchOutcome := FetchThrows | FetchNotOk | FetchJson (d : PriceData).

Record Route := {
  route_from : string;
  route_to : string;
  stable : bool;
  factory : string
}.

(** The call that [encodeFunctionData] encodes, kept symbolic. *)
Inductive Calldata :=
| swapExactETHForTokens (amountOutMin : Z) (routes : list Route) (to : string) (deadline : Z)
| swapExactTokensForTokens (amountIn' amountOutMin : Z) (routes : list Route) (to : string) (deadline : Z).

Record TxRequest := {
  tx_to : string;
  tx_data : Calldata;
  tx_value : option Z;
  tx_gas : Z
}.

Inductive ExternalCall :=
| PriceRequest (coinId : string)
| SendTransaction (req : TxRequest)
| Sleep (ms : number).

(** The answers of the outside world; the n-th price request and the
    n-th [Math.random()] may each answer differently.

    [sendTransaction] is the function handed to [executeRealSwap]: it is
    declared to return the hash; the one both callers pass is wagmi's
    [useSendTransaction().sendTransaction], which in wagmi 2 returns
    [undefined] ([None]) at once and never throws.

    [parseUnits] and [encodeFunctionData] are viem's.  The latter checks
    its arguments (an address has to be one, checksum included, an integer
    has to fit its type): [Some error] is what it throws, [None] says that
    the call encodes, and the call itself stands for its encoding.
    [addressError] is the message of what it throws when handed a member
    of [Object.prototype] for an address, and [memberText] is the text such
    a member prints as. *)
Record Oracle := {
  fetch : nat -> string -> FetchOutcome;
  sendTransaction : TxRequest -> Completion (option string);
  random : nat -> number;
  now : number;                                      (* Date.now() *)
  parseUnits : string -> number -> Completion Z;
  encodeFunctionData : Calldata -> option Thrown;
  addressError : string -> string;
  memberText : string -> string;
  toString16 : number -> string                      (* Number.prototype.toString(16) *)
}.

Record World := {
  calls : list ExternalCall;
  fetched : nat;
  drawn : nat
}.

Definition M (A : Type) : Type := World -> Completion A * World.

Definition ret {A} (a : A) : M A := fun w => (Normal a, w).

Definition throw {A} (t : Thrown) : M A := fun w => (Abrupt t, w).

Definition bind {A B} (m : M A) (k : A -> M B) : M B :=
  fun w =>
    match m w with
    | (Normal a, w') => k a w'
    | (Abrupt t, w') => (Abrupt t, w')
    end.

Definition try_catch {A} (m : M A) (handler : Thrown -> M A) : M A :=
  fun w =>
    match m w with
    | (Normal a, w') => (Normal a, w')
    | (Abrupt t, w') => handler t w'
    end.

Definition lift {A} (c : Completion A) : M A := fun w => (c, w).

Declare Scope js_scope.
Delimit Scope js_scope with js.
Notation "x <- m ;; k" := (bind m (fun x => k))
  (at level 61, m at next level, right associativity) : js_scope.
Notation "m ;;; k" := (bind m (fun _ => k))
  (at level 61, right associativity) : js_scope.
Local Open Scope js_scope.

(** The own property [key] of an object literal used as a table. *)
Fixpoint lookup {A} (key : string) (table : list (string * A)) : option A :=
  match table with
  | [] => None
  | (k, v) :: rest => if String.eqb k key then Some v else lookup key rest
  end.

(** What every object literal inherits: [obj[key]] is a function, or for
    [__proto__] an object, when [key] is one of these names and no own
    property.  Such a value is truthy, is no number and is no string. *)
Definition OBJECT_PROTOTYPE : list string :=
  [ "constructor"; "hasOwnProperty"; "isPrototypeOf"; "propertyIsEnumerable";
    "toLocaleString"; "toString"; "valueOf"; "__proto__";
    "__defineGetter__"; "__defineSetter__"; "__lookupGetter__"; "__lookupSetter__" ].

Definition inherited (key : string) : bool := existsb (String.eqb key) OBJECT_PROTOTYPE.

(** [!obj[key]] on a table of non-empty strings. *)
Definition missing {A} (key : string) (table : list (string * A)) : bool :=
  match lookup key table with
  | Some _ => false
  | None => negb (inherited key)
  end.

(** What [getTokenPrice] hands back where a number is expected: a number,
    or the member of [Object.prototype] that [fallbackPrices[tokenSymbol]]
    finds (line 117).  In arithmetic such a member is NaN, and it has no
    [toFixed]. *)
Inductive Price :=
| a_number (p : number)
| a_member (key : string).

Definition to_number (v : Price) : number :=
  match v with
  | a_number p => p
  | a_member _ => nan
  end.

Definition AERODROME_ROUTER : string := "0xcF77a3Ba9A5CA399B7c97c74d54e5b1Beb874E43".
Definition AERODROME_FACTORY : string := "0x420DD381b31aEf6683db6B902084cB0FFECe40Da".

Definition TOKEN_ADDRESSES : list (string * string) :=
  [ ("USDC", "0x833589fCD6eDb6E08f4c7C32D4f71b54bdA02913");
    ("ETH", "0x4200000000000000000000000000000000000006");
    ("DAI", "0x50c5725949A6F0c72E6C4a641F24049A917DB0Cb");
    ("USDbC", "0xd9aAEc86B65D86f6A7B5B1b0c42FFA531710b6CA") ].

Definition symbolMap : list (string * string) :=
  [ ("ETH", "ethereum"); ("USDC", "usd-coin"); ("DAI", "dai"); ("USDbC", "usd-coin") ].

Definition fallbackPrices : list (string * number) :=
  [ ("ETH", 2500%float); ("USDC", 1%float); ("DAI", 1%float); ("USDbC", 1%float) ].

(** [!x] on a number: zero and NaN are falsy. *)
Definition falsy (x : number) : bool := PrimFloat.is_zero x || PrimFloat.is_nan x.

Section Service.

Variable o : Oracle.

Definition fetchPrice (coinId : string) : M FetchOutcome :=
  fun w =>
    (Normal (fetch o (fetched w) coinId),
     {| calls := calls w ++ [PriceRequest coinId];
        fetched := S (fetched w); drawn := drawn w |}).

Definition Math_random : M number :=
  fun w =>
    (Normal (random o (drawn w)),
     {| calls := calls w; fetched := fetched w; drawn := S (drawn w) |}).

Definition send (req : TxRequest) : M (option string) :=
  fun w =>
    (sendTransaction o req,
     {| calls := calls w ++ [SendTransaction req];
        fetched := fetched w; drawn := drawn w |}).

Definition sleep (ms : number) : M unit :=
  fun w =>
    (Normal tt,
     {| calls := calls w ++ [Sleep ms]; fetched := fetched w; drawn := drawn w |}).

(** [v.toFixed(d)] for the variable [v]; the TypeError as V8 words it. *)
Definition toFixed_of (variable : string) (v : Price) (d : nat) : M string :=
  match v with
  | a_number p => ret (toFixed p d)
  | a_member _ => throw (ErrorObject (variable ++ ".toFixed is not a function"))
  end.

(** Lines 74-119. *)
Definition getTokenPrice (tokenSymbol : string) : M Price :=
  try_catch
    (let coinId :=
       match lookup tokenSymbol symbolMap with
       | Some id => id
       | None => if inherited tokenSymbol then memberText o tokenSymbol
                 else toLowerCase tokenSymbol
       end in
     response <- fetchPrice coinId ;;
     match response with
     | FetchThrows => throw (ErrorObject "Failed to fetch")
     | FetchNotOk => throw (ErrorObject "HTTP")
     | FetchJson (UsdNumber p) =>
         if falsy p then throw (ErrorObject "Invalid price data") else ret (a_number p)
     | FetchJson UsdOther => throw (ErrorObject "Invalid price data")
     end)
    (fun _ =>
       match lookup tokenSymbol fallbackPrices with
       | Some p => ret (a_number p)
       | None => if inherited tokenSymbol then ret (a_member tokenSymbol)
                 else ret (a_number 1)
       end).

(** Lines 309-354. *)
Definition enhancedSimulation (sourceToken targetToken : Token) (amountUSD : number)
  : M SwapResult :=
  try_catch
    (targetPrice <- getTokenPrice (symbol targetToken) ;;
     r <- Math_random ;;
     sleep (1500 + r * 2000)%float ;;;
     r <- Math_random ;;
     let isSuccess := (0.05 <? r)%float in
     if negb isSuccess then
       ret {| success := false; txHash := None;
              error := Some "Simulated network congestion";
              amountIn := toFixed amountUSD 2; amountOut := "0"; price := None;
              isReal := None; isEnhancedSimulation := None; note := None |}
     else
       r <- Math_random ;;
       let slippage := (0.001 + r * 0.002)%float in
       let effectivePrice := (to_number targetPrice * (1 - slippage))%float in
       let amountOut := toFixed (amountUSD / effectivePrice)%float 6 in
       r <- Math_random ;;
       ret {| success := true;
              txHash := Some ("0x" ++ slice (toString16 o r) 2 66);
              error := None;
              amountIn := toFixed amountUSD 2;
              amountOut := amountOut;
              price := Some (toFixed effectivePrice 2);
              isReal := Some false;
              isEnhancedSimulation := Some true;
              note := Some "🎭 Enhanced simulation - real swap infrastructure ready" |})
    (fun error => throw error).

(** Lines 276-288: the message kept for a failed real swap. *)
Definition errorMessageOf (error : Thrown) : string :=
  match error with
  | ErrorObject message =>
      let msg := toLowerCase message in
      if includes msg "insufficient" then "Insufficient balance or liquidity"
      else if includes msg "user rejected" || includes msg "user denied" then
        "Transaction rejected - please reconnect wallet"
      else if includes msg "network" || includes msg "fetch" then
        "Network error, please try again"
      else message
  | OtherValue => "Swap failed"
  end.

Definition set_note (r : SwapResult) (n : string) : SwapResult :=
  {| success := success r; txHash := txHash r; error := error r;
     amountIn := amountIn r; amountOut := amountOut r; price := price r;
     isReal := isReal r; isEnhancedSimulation := isEnhancedSimulation r;
     note := Some n |}.

(** [BigInt(x)]: a RangeError unless [x] is an integer. *)
Definition BigInt (x : number) : M Z :=
  match integer_value x with
  | Some n => ret n
  | None => throw (ErrorObject "The number cannot be converted to a BigInt because it is not an integer")
  end.

(** [encodeFunctionData(...)] (lines 193, 217 and 241). *)
Definition encode (call : Calldata) : M Calldata :=
  match encodeFunctionData o call with
  | None => ret call
  | Some error => throw error
  end.

(** Lines 129-271: the body of the [try].  (The [console.log] of lines
    164-170 formats values that [parseUnits] has accepted and does not
    throw.)  A symbol that names a member of [Object.prototype] passes the
    check of line 146 and puts that member into the route, which
    [encodeFunctionData] then refuses. *)
Definition realSwap (sourceToken targetToken : Token) (amountInUSD userAddress : string)
  : M SwapResult :=
  let amountNum := parseFloat amountInUSD in
  if (amountNum <=? 0)%float then throw (ErrorObject "Invalid swap amount")
  else if missing (symbol sourceToken) TOKEN_ADDRESSES
          || missing (symbol targetToken) TOKEN_ADDRESSES then
    throw (ErrorObject ("Unsupported token pair: " ++ symbol sourceToken ++ " -> "
                        ++ symbol targetToken))
  else
    fromPrice <- getTokenPrice (symbol sourceToken) ;;
    toPrice <- getTokenPrice (symbol targetToken) ;;
    fromTokenAmount <-
      (if String.eqb (symbol sourceToken) "USDC" || String.eqb (symbol sourceToken) "DAI"
       then lift (parseUnits o amountInUSD (decimals sourceToken))
       else lift (parseUnits o (toFixed (amountNum / to_number fromPrice)%float 18)
                    (decimals sourceToken))) ;;
    let expectedToAmount := (amountNum / to_number toPrice)%float in
    let minToAmount := (expectedToAmount * 0.99)%float in
    minToAmountWei <- lift (parseUnits o (toFixed minToAmount 18) (decimals targetToken)) ;;
    deadline <- BigInt (Math_floor (now o / 1000) + 1200)%float ;;
    match lookup (symbol sourceToken) TOKEN_ADDRESSES,
          lookup (symbol targetToken) TOKEN_ADDRESSES with
    | Some fromTokenAddress, Some toTokenAddress =>
        let route := {| route_from := fromTokenAddress; route_to := toTokenAddress;
                        stable := false; factory := AERODROME_FACTORY |} in
        txHash <-
          (if String.eqb (symbol sourceToken) "ETH" then
             swapData <- encode (swapExactETHForTokens minToAmountWei [route]
                                   userAddress deadline) ;;
             send {| tx_to := AERODROME_ROUTER;
                     tx_data := swapData;
                     tx_value := Some fromTokenAmount; tx_gas := 300000 |}
           else if String.eqb (symbol targetToken) "ETH" then
             swapData <- encode (swapExactTokensForTokens fromTokenAmount minToAmountWei
                                   [route] userAddress deadline) ;;
             send {| tx_to := AERODROME_ROUTER;
                     tx_data := swapData;
                     tx_value := None; tx_gas := 300000 |}
           else
             swapData <- encode (swapExactTokensForTokens fromTokenAmount minToAmountWei
                                   [route] userAddress deadline) ;;
             send {| tx_to := AERODROME_ROUTER;
                     tx_data := swapData;
                     tx_value := None; tx_gas := 300000 |}) ;;
        price <- toFixed_of "toPrice" toPrice 2 ;;
        ret {| success := true;
               txHash := txHash;
               error := None;
               amountIn := amountInUSD;
               amountOut := toFixed expectedToAmount 6;
               price := Some price;
               isReal := Some true;
               isEnhancedSimulation := None;
               note := Some "✅ Invisible swap executed via smart wallet + Aerodrome DEX" |}
    | None, _ => throw (ErrorObject (addressError o (symbol sourceToken)))
    | _, None => throw (ErrorObject (addressError o (symbol targetToken)))
    end.

(** Lines 273-305: the [catch]. *)
Definition realSwapFailed (sourceToken targetToken : Token) (amountInUSD : string)
    (error : Thrown) : M SwapResult :=
  let errorMessage := errorMessageOf error in
  try_catch
    (simulationResult <-
       enhancedSimulation sourceToken targetToken (parseFloat amountInUSD) ;;
     ret (set_note simulationResult
            ("Smart wallet swap failed: " ++ errorMessage ++ ". Showing simulation.")))
    (fun simError =>
       ret {| success := false; txHash := None; error := Some errorMessage;
              amountIn := amountInUSD; amountOut := "0"; price := None;
              isReal := None; isEnhancedSimulation := None; note := None |}).

(** Lines 122-306. *)
Definition executeRealSwap (sourceToken targetToken : Token)
    (amountInUSD userAddress : string) : M SwapResult :=
  try_catch (realSwap sourceToken targetToken amountInUSD userAddress)
            (realSwapFailed sourceToken targetToken amountInUSD).

End Service.

Inductive Validation := valid | invalid (error : string).

(** Lines 357-384. *)
Definition validateRealSwap (sourceToken targetToken : Token) (amountUSD : number)
    (userBalance : string) : Validation :=
  if (amountUSD <? 0.01)%float then invalid "Minimum swap amount is $0.01"
  else if (10000 <? amountUSD)%float then invalid "Maximum swap amount is $10,000"
  else if String.eqb (address sourceToken) (address targetToken) then
    invalid "Cannot swap token with itself"
  else
    let balance := parseFloat (if String.eqb userBalance "" then "0" else userBalance) in
    if (balance <? amountUSD)%float then
      invalid ("Insufficient balance. Have: $" ++ toFixed balance 2 ++ ", Need: $"
               ++ toFixed amountUSD 2)
    else valid.


(** ** [src/hooks/useDCA.ts]: the hook *)

(** The values held by [useState]. *)
Record HookState := {
  config : DCAConfig;
  currentTier : FrequencyTier;
  sliderValue : number;
  swapHistory : list SwapResult;
  totalSwapped : number;
  isExecutingSwap : bool
}.

(** What [useWallet], [useAccount] and [useSendTransaction] hand to the hook. *)
Record Wallet := {
  w_balance : option string;
  w_address : option string;
  w_sendTransaction : bool     (* is the function there *)
}.

(** The constants one render binds and its callbacks close over: a callback
    created in a render keeps reading these values, whatever the state has
    become since ([useCallback] dependency lists, lines 156 and 205). *)
Record Render := {
  r_config : DCAConfig;
  r_balance : option string;
  r_address : option string;
  r_sendTransaction : bool;
  r_isExecutingSwap : bool
}.

Definition initialState : HookState :=
  {| config := {| sourceToken := DEFAULT_SOURCE_TOKEN;
                  targetToken := DEFAULT_TARGET_TOKEN;
                  frequency := 3600000;
                  percentage := 1;
                  isActive := false;
                  nextSwapIn := 0 |};
     currentTier := hours;
     sliderValue := 50;
     swapHistory := [];
     totalSwapped := 0;
     isExecutingSwap := false |}.

(** The state setters; [setConfig] is always called with an updater. *)
Definition setConfig (f : DCAConfig -> DCAConfig) (st : HookState) : HookState :=
  {| config := f (config st); currentTier := currentTier st;
     sliderValue := sliderValue st; swapHistory := swapHistory st;
     totalSwapped := totalSwapped st; isExecutingSwap := isExecutingSwap st |}.

Definition setCurrentTier (t : FrequencyTier) (st : HookState) : HookState :=
  {| config := config st; currentTier := t;
     sliderValue := sliderValue st; swapHistory := swapHistory st;
     totalSwapped := totalSwapped st; isExecutingSwap := isExecutingSwap st |}.

Definition setSliderValue (v : number) (st : HookState) : HookState :=
  {| config := config st; currentTier := currentTier st;
     sliderValue := v; swapHistory := swapHistory st;
     totalSwapped := totalSwapped st; isExecutingSwap := isExecutingSwap st |}.

Definition setSwapHistory (f : list SwapResult -> list SwapResult) (st : HookState)
  : HookState :=
  {| config := config st; currentTier := currentTier st;
     sliderValue := sliderValue st; swapHistory := f (swapHistory st);
     totalSwapped := totalSwapped st; isExecutingSwap := isExecutingSwap st |}.

Definition setTotalSwapped (f : number -> number) (st : HookState) : HookState :=
  {| config := config st; currentTier := currentTier st;
     sliderValue := sliderValue st; swapHistory := swapHistory st;
     totalSwapped := f (totalSwapped st); isExecutingSwap := isExecutingSwap st |}.

Definition setIsExecutingSwap (b : bool) (st : HookState) : HookState :=
  {| config := config st; currentTier := currentTier st;
     sliderValue := sliderValue st; swapHistory := swapHistory st;
     totalSwapped := totalSwapped st; isExecutingSwap := b |}.

(** Lines 28-40. *)
Definition handleOnchainKitSwap (result : SwapResult) (st : HookState) : HookState :=
  let st := setSwapHistory (fun prev => result :: firstn 9 prev) st in
  if success result then
    setTotalSwapped (fun prev => (prev + parseFloat (amountIn result))%float) st
  else st.

(** Lines 59-66: the effect on [sliderValue] and [currentTier]. *)
Definition frequencyEffect (st : HookState) : HookState :=
  let newFrequency := calculateFrequency (sliderValue st) (currentTier st) in
  setConfig (fun prev =>
    {| sourceToken := sourceToken prev; targetToken := targetToken prev;
       frequency := newFrequency; percentage := percentage prev;
       isActive := isActive prev;
       nextSwapIn := if isActive prev then newFrequency else 0 |}) st.

(** [x || '0'] on an optional string. *)
Definition orZero (x : option string) : string :=
  match x with
  | Some s => if String.eqb s "" then "0" else s
  | None => "0"
  end.

Definition failed (message : string) : SwapResult :=
  {| success := false; txHash := None; error := Some message;
     amountIn := "0"; amountOut := "0"; price := None;
     isReal := None; isEnhancedSimulation := None; note := None |}.

(** The arguments [executeRealSwap] is called with at line 124. *)
Record SwapCall := {
  call_source : Token;
  call_target : Token;
  call_amountInUSD : string;
  call_address : string
}.

(** Lines 91-121: the [try] up to the call of [executeRealSwap]. *)
Definition prepareSwap (r : Render) (address : string) : Completion SwapCall :=
  let currentBalance := parseFloat (orZero (r_balance r)) in
  if (currentBalance =? 0)%float then Abrupt (ErrorObject "Insufficient balance")
  else
    let swapAmount := (currentBalance * (percentage (r_config r) / 100))%float in
    if (swapAmount <? 0.01)%float then
      Abrupt (ErrorObject "Swap amount too small (minimum $0.01 for reliable execution)")
    else
      match validateRealSwap (sourceToken (r_config r)) (targetToken (r_config r))
              swapAmount (orZero (r_balance r)) with
      | invalid error => Abrupt (ErrorObject error)
      | valid =>
          Normal {| call_source := sourceToken (r_config r);
                    call_target := targetToken (r_config r);
                    call_amountInUSD := toFixed swapAmount 2;
                    call_address := address |}
      end.

(** Lines 142-155: [catch] and [finally]. *)
Definition swapThrew (error : Thrown) (st : HookState) : SwapResult * HookState :=
  let errorResult :=
    failed (match error with
            | ErrorObject message => message
            | OtherValue => "Network error"
            end) in
  (errorResult, setIsExecutingSwap false (handleOnchainKitSwap errorResult st)).

(** An attempt either resolves on the spot or is suspended at
    [await executeRealSwap(...)]. *)
Inductive Attempt :=
| Resolved (result : SwapResult) (st : HookState)
| Awaiting (call : SwapCall) (st : HookState).

(** Lines 69-130: [executeSingleSwap] of render [r], up to its [await]. *)
Definition executeSingleSwap (r : Render) (st : HookState) : Attempt :=
  if r_isExecutingSwap r then Resolved (failed "Swap already in progress") st
  else
    match r_address r with
    | None => Resolved (failed "Wallet not connected or transaction function unavailable") st
    | Some address =>
        if String.eqb address "" || negb (r_sendTransaction r) then
          Resolved (failed "Wallet not connected or transaction function unavailable") st
        else
          let st := setIsExecutingSwap true st in
          match prepareSwap r address with
          | Abrupt error =>
              let '(errorResult, st) := swapThrew error st in
              Resolved errorResult st
          | Normal call => Awaiting call st
          end
    end.

(** Lines 132-155: [executeSingleSwap] from its [await] on, once
    [executeRealSwap] has settled; the flag says whether a balance refresh
    was scheduled. *)
Definition executeSingleSwap_resume (settled : Completion SwapResult) (st : HookState)
  : SwapResult * HookState * bool :=
  match settled with
  | Normal result =>
      let st := handleOnchainKitSwap result st in
      (result, setIsExecutingSwap false st, success result)
  | Abrupt error =>
      let '(errorResult, st) := swapThrew error st in
      (errorResult, st, false)
  end.

(** Lines 223-229. *)
Definition updateTokens (source target : Token) (st : HookState) : HookState :=
  setConfig (fun prev =>
    {| sourceToken := source; targetToken := target;
       frequency := frequency prev; percentage := percentage prev;
       isActive := isActive prev; nextSwapIn := nextSwapIn prev |}) st.

(** Lines 232-238. *)
Definition swapTokens (st : HookState) : HookState :=
  setConfig (fun prev =>
    {| sourceToken := targetToken prev; targetToken := sourceToken prev;
       frequency := frequency prev; percentage := percentage prev;
       isActive := isActive prev; nextSwapIn := nextSwapIn prev |}) st.

Definition set_nextSwapIn (v : DCAConfig -> number) (prev : DCAConfig) : DCAConfig :=
  {| sourceToken := sourceToken prev; targetToken := targetToken prev;
     frequency := frequency prev; percentage := percentage prev;
     isActive := isActive prev; nextSwapIn := v prev |}.

Definition set_active (b : bool) (v : DCAConfig -> number) (prev : DCAConfig) : DCAConfig :=
  {| sourceToken := sourceToken prev; targetToken := targetToken prev;
     frequency := frequency prev; percentage := percentage prev;
     isActive := b; nextSwapIn := v prev |}.


(** ** The hook in its runtime

    The component's state, the two interval handles, the timers the runtime
    has armed and the attempts suspended at [await executeRealSwap(...)].
    An armed swap timer keeps the [runSwap] of the render in which
    [startDCA] ran (line 204). *)

Inductive Timer :=
| CountdownTimer
| SwapTimer (closure : Render) (period : number).

Record Pending := {
  p_call : SwapCall;
  p_scheduled : bool      (* awaited by [runSwap] *)
}.

Record Sys := {
  hook : HookState;
  wallet : Wallet;
  intervalRef : option nat;
  countdownRef : option nat;
  timers : list (nat * Timer);
  pending : list (nat * Pending);
  fresh : nat;                     (* next timer or attempt identifier *)
  world : World;                   (* the external calls made so far *)
  refreshes : nat                  (* balance refreshes scheduled (line 136) *)
}.

Definition with_hook (f : HookState -> HookState) (sys : Sys) : Sys :=
  {| hook := f (hook sys); wallet := wallet sys;
     intervalRef := intervalRef sys; countdownRef := countdownRef sys;
     timers := timers sys; pending := pending sys; fresh := fresh sys;
     world := world sys; refreshes := refreshes sys |}.

(** The render of the current state: what the callbacks handed to the
    interface close over. *)
Definition render (sys : Sys) : Render :=
  {| r_config := config (hook sys);
     r_balance := w_balance (wallet sys);
     r_address := w_address (wallet sys);
     r_sendTransaction := w_sendTransaction (wallet sys);
     r_isExecutingSwap := isExecutingSwap (hook sys) |}.

Definition clearInterval (id : nat) (ts : list (nat * Timer)) : list (nat * Timer) :=
  filter (fun t => negb (Nat.eqb (fst t) id)) ts.

(** Lines 170-181. *)
Definition startCountdown (sys : Sys) : Sys :=
  let ts := match countdownRef sys with
            | Some id => clearInterval id (timers sys)
            | None => timers sys
            end in
  {| hook := hook sys; wallet := wallet sys;
     intervalRef := intervalRef sys;
     countdownRef := Some (fresh sys);
     timers := ts ++ [(fresh sys, CountdownTimer)];
     pending := pending sys; fresh := S (fresh sys);
     world := world sys; refreshes := refreshes sys |}.

(** Lines 176-179: one firing of the countdown timer. *)
Definition countdownTick (st : HookState) : HookState :=
  setConfig (set_nextSwapIn (fun prev => Math_max 0 (nextSwapIn prev - 100)%float)) st.

(** Lines 184-205, as the callback of render [r]. *)
Definition startDCA (r : Render) (sys : Sys) : Sys :=
  if isActive (r_config r) then sys
  else
    let currentBalance := parseFloat (orZero (r_balance r)) in
    if (currentBalance =? 0)%float then sys
    else
      let sys := with_hook (setConfig (set_active true frequency)) sys in
      let sys := startCountdown sys in
      {| hook := hook sys; wallet := wallet sys;
         intervalRef := Some (fresh sys);
         countdownRef := countdownRef sys;
         timers := timers sys ++ [(fresh sys, SwapTimer r (frequency (r_config r)))];
         pending := pending sys; fresh := S (fresh sys);
         world := world sys; refreshes := refreshes sys |}.

(** Lines 198-202: one firing of the swap timer, up to the first point
    where [runSwap] has to wait for the network. *)
Definition runSwap (r : Render) (sys : Sys) : Sys :=
  match executeSingleSwap r (hook sys) with
  | Resolved _ st =>
      with_hook (fun _ => setConfig (set_nextSwapIn frequency) st) sys
  | Awaiting call st =>
      {| hook := st; wallet := wallet sys;
         intervalRef := intervalRef sys; countdownRef := countdownRef sys;
         timers := timers sys;
         pending := pending sys ++ [(fresh sys, {| p_call := call; p_scheduled := true |})];
         fresh := S (fresh sys);
         world := world sys; refreshes := refreshes sys |}
  end.

(** [executeSwap] called directly (line 261). *)
Definition executeSwap (r : Render) (sys : Sys) : Sys :=
  match executeSingleSwap r (hook sys) with
  | Resolved _ st => with_hook (fun _ => st) sys
  | Awaiting call st =>
      {| hook := st; wallet := wallet sys;
         intervalRef := intervalRef sys; countdownRef := countdownRef sys;
         timers := timers sys;
         pending := pending sys ++ [(fresh sys, {| p_call := call; p_scheduled := false |})];
         fresh := S (fresh sys);
         world := world sys; refreshes := refreshes sys |}
  end.

(** Lines 208-220. *)
Definition stopDCA (sys : Sys) : Sys :=
  let st := setConfig (set_active false (fun _ => 0%float)) (hook sys) in
  let ts := match intervalRef sys with
            | Some id => clearInterval id (timers sys)
            | None => timers sys
            end in
  let ts := match countdownRef sys with
            | Some id => clearInterval id ts
            | None => ts
            end in
  {| hook := st; wallet := wallet sys;
     intervalRef := None; countdownRef := None;
     timers := ts; pending := pending sys; fresh := fresh sys;
     world := world sys; refreshes := refreshes sys |}.

(** Lines 241-246: the cleanup on unmount. *)
Definition cleanup (sys : Sys) : Sys :=
  let ts := match intervalRef sys with
            | Some id => clearInterval id (timers sys)
            | None => timers sys
            end in
  let ts := match countdownRef sys with
            | Some id => clearInterval id ts
            | None => ts
            end in
  {| hook := hook sys; wallet := wallet sys;
     intervalRef := intervalRef sys; countdownRef := countdownRef sys;
     timers := ts; pending := pending sys; fresh := fresh sys;
     world := world sys; refreshes := refreshes sys |}.

(** Lines 159-167 followed by the effect of lines 59-66, which runs when
    the slider value or the tier is no longer the same value. *)
Definition rerunFrequencyEffect (before after : HookState) : HookState :=
  if PrimFloat.Leibniz.eqb (sliderValue before) (sliderValue after)
     && FrequencyTier_eqb (currentTier before) (currentTier after)
  then after else frequencyEffect after.

Definition handleSliderChange (value : number) (st : HookState) : HookState :=
  rerunFrequencyEffect st (setSliderValue value st).

Definition handleTierChange (newTier : FrequencyTier) (st : HookState) : HookState :=
  rerunFrequencyEffect st (setSliderValue 50 (setCurrentTier newTier st)).

Fixpoint find_pending (id : nat) (ps : list (nat * Pending)) : option Pending :=
  match ps with
  | [] => None
  | (i, p) :: rest => if Nat.eqb i id then Some p else find_pending id rest
  end.

Fixpoint find_timer (id : nat) (ts : list (nat * Timer)) : option Timer :=
  match ts with
  | [] => None
  | (i, t) :: rest => if Nat.eqb i id then Some t else find_timer id rest
  end.

(** Attempt [id] gets its answer: [executeRealSwap] runs against the
    oracle [o], [executeSingleSwap] resumes after its [await], and a
    [runSwap] that was waiting for it resets the countdown (line 201). *)
Definition settle (id : nat) (o : Oracle) (sys : Sys) : Sys :=
  match find_pending id (pending sys) with
  | None => sys
  | Some p =>
      let c := p_call p in
      let '(settled, w) :=
        executeRealSwap o (call_source c) (call_target c) (call_amountInUSD c)
          (call_address c) (world sys) in
      let '(_, st, refresh) := executeSingleSwap_resume settled (hook sys) in
      let st := if p_scheduled p then setConfig (set_nextSwapIn frequency) st else st in
      {| hook := st; wallet := wallet sys;
         intervalRef := intervalRef sys; countdownRef := countdownRef sys;
         timers := timers sys;
         pending := filter (fun q => negb (Nat.eqb (fst q) id)) (pending sys);
         fresh := fresh sys; world := w;
         refreshes := if refresh then S (refreshes sys) else refreshes sys |}
  end.

(** What can happen to a mounted component. *)
Inductive Event :=
| Start                                       (* the interface calls [startDCA] *)
| Stop                                        (* ... [stopDCA] *)
| ExecuteSwap                                 (* ... [executeSwap] *)
| SliderChange (value : number)
| TierChange (newTier : FrequencyTier)
| UpdateTokens (source target : Token)
| SwapTokens
| OnchainKitSwap (result : SwapResult)        (* ... [handleOnchainKitSwap] *)
| WalletChange (w : Wallet)                   (* the wallet hooks report new values *)
| Fire (id : nat)                             (* the armed timer [id] fires *)
| Settle (id : nat) (o : Oracle).             (* the pending attempt [id] settles *)

Definition step (e : Event) (sys : Sys) : Sys :=
  match e with
  | Start => startDCA (render sys) sys
  | Stop => stopDCA sys
  | ExecuteSwap => executeSwap (render sys) sys
  | SliderChange value => with_hook (handleSliderChange value) sys
  | TierChange newTier => with_hook (handleTierChange newTier) sys
  | UpdateTokens source target => with_hook (updateTokens source target) sys
  | SwapTokens => with_hook swapTokens sys
  | OnchainKitSwap result => with_hook (handleOnchainKitSwap result) sys
  | WalletChange w =>
      {| hook := hook sys; wallet := w;
         intervalRef := intervalRef sys; countdownRef := countdownRef sys;
         timers := timers sys; pending := pending sys; fresh := fresh sys;
         world := world sys; refreshes := refreshes sys |}
  | Fire id =>
      match find_timer id (timers sys) with
      | Some CountdownTimer => with_hook countdownTick sys
      | Some (SwapTimer r _) => runSwap r sys
      | None => sys
      end
  | Settle id o => settle id o sys
  end.

Definition run (es : list Event) (sys : Sys) : Sys :=
  fold_left (fun s e => step e s) es sys.

(** The component once mounted: the initial state after the first run of
    the frequency effect, nothing armed, nothing pending. *)
Definition mounted (w : Wallet) : Sys :=
  {| hook := frequencyEffect initialState; wallet := w;
     intervalRef := None; countdownRef := None;
     timers := []; pending := []; fresh := 0;
     world := {| calls := []; fetched := 0; drawn := 0 |};
     refreshes := 0 |}.

(** The external calls of each collaborator made so far. *)
Definition priceCalls (sys : Sys) : nat :=
  List.length (filter (fun c => match c with PriceRequest _ => true | _ => false end)
                 (calls (world sys))).

Definition swapCalls (sys : Sys) : nat :=
  List.length (filter (fun c => match c with SendTransaction _ => true | _ => false end)
                 (calls (world sys))).


(** ** Vocabulary of the statements *)

(** The seconds value the mapper computes for a tier entry (lines 51-53). *)
Definition secondsFor (c : SliderTier) (value : number) : number :=
  (min c + (max c - min c) * (1 - value / 100))%float.

(** The whole-number control values 0, 1, ..., 100. *)
Definition wholeValues : list Z := map Z.of_nat (seq 0 101).

(** Recording a sequence of outcomes, oldest first. *)
Definition recordAll (outcomes : list SwapResult) (st : HookState) : HookState :=
  fold_left (fun s r => handleOnchainKitSwap r s) outcomes st.

(** The amounts of the successful outcomes, added up in recording order. *)
Definition successfulVolume (outcomes : list SwapResult) : number :=
  fold_left (fun acc r => (acc + parseFloat (amountIn r))%float)
    (filter success outcomes) 0%float.

Definition outcome (ok : bool) (amount : string) : SwapResult :=
  {| success := ok; txHash := None;
     error := if ok then None else Some "failed";
     amountIn := amount; amountOut := "0"; price := None;
     isReal := None; isEnhancedSimulation := None; note := None |}.

(** What the mapper returns at a whole control value [n], in exact
    arithmetic: 1000 min + 10 (max - min) (100 - n). *)
Definition wholeValueFrequency (c : SliderTier) (n : Z) : option Z :=
  match integer_value (min c), integer_value (max c) with
  | Some lo, Some hi => Some (1000 * lo + 10 * (hi - lo) * (100 - n))
  | _, _ => None
  end.

(** ** Scenarios the statements are evaluated on *)

(** A connected wallet holding 100.00, and the same wallet holding 0.00. *)
Definition userAddress : string := "0x8ba1f109551bd432803012645ac136ddd64dba72".

Definition connected : Wallet :=
  {| w_balance := Some "100.00"; w_address := Some userAddress;
     w_sendTransaction := true |}.

Definition emptyWallet : Wallet :=
  {| w_balance := Some "0.00"; w_address := Some userAddress; w_sendTransaction := true |}.

(** A render in which both tokens of the pair are USDC. *)
Definition sameTokenRender (balance : string) : Render :=
  {| r_config := {| sourceToken := DEFAULT_SOURCE_TOKEN;
                    targetToken := DEFAULT_SOURCE_TOKEN;
                    frequency := 45000000; percentage := 1;
                    isActive := true; nextSwapIn := 45000000 |};
     r_balance := Some balance;
     r_address := Some userAddress;
     r_sendTransaction := true;
     r_isExecutingSwap := false |}.


(** The account a call pays out to. *)
Definition payee (call : Calldata) : string :=
  match call with
  | swapExactETHForTokens _ _ to _ => to
  | swapExactTokensForTokens _ _ _ to _ => to
  end.

(** [0x] and forty hexadecimal digits without capitals: an address that
    needs no checksum. *)
Definition is_lower_hex (c : ascii) : bool :=
  is_digit c || ((97 <=? nat_of_ascii c) && (nat_of_ascii c <=? 102))%nat.

Fixpoint all_lower_hex (s : string) : bool :=
  match s with
  | EmptyString => true
  | String c r => is_lower_hex c && all_lower_hex r
  end.

Definition plain_address (s : string) : bool :=
  match s with
  | String "0" (String "x" r) => (String.length r =? 40)%nat && all_lower_hex r
  | _ => false
  end.

(** [parseUnits] on a decimal text [-digits.digits], sign and point
    optional: the value times 10^decimals, rounded half up when the text
    has more decimals than that; any other text is refused. *)
Definition decimal_units (value : string) (decimals : number) : Completion Z :=
  let '(neg, s) :=
    match value with
    | String "-" r => (true, r)
    | _ => (false, value)
    end in
  let '(i, _, r) := read_digits s 0 0 in
  let '(f, nf, r) :=
    match r with
    | String "." r' => read_digits r' 0 0
    | _ => (0, 0, r)
    end in
  match r, integer_value decimals with
  | EmptyString, Some d =>
      if d <? 0 then Abrupt (ErrorObject "Invalid count value")
      else
        let n := (2 * ((i * 10 ^ nf + f) * 10 ^ d) + 10 ^ nf) / (2 * 10 ^ nf) in
        Normal (if neg then - n else n)
  | _, _ => Abrupt (ErrorObject "Number is not a valid decimal number.")
  end.

(** The amounts of a call fit [uint256]. *)
Definition amounts_fit (call : Calldata) : bool :=
  let fits n := (0 <=? n) && (n <? 2 ^ 256) in
  match call with
  | swapExactETHForTokens amountOutMin _ _ deadline => fits amountOutMin && fits deadline
  | swapExactTokensForTokens amountIn' amountOutMin _ _ deadline =>
      fits amountIn' && fits amountOutMin && fits deadline
  end.

(** An outside world in which the price API is unreachable (so the
    fallback prices are used), [parseUnits] takes decimal texts, the call
    encodes when its amounts fit and it pays out to a plain address, and
    the wallet function is the one of wagmi: it returns [undefined] at
    once. *)
Definition calm : Oracle :=
  {| fetch := fun _ _ => FetchThrows;
     sendTransaction := fun _ => Normal None;
     random := fun _ => 0.5%float;
     now := 1700000000000%float;
     parseUnits := decimal_units;
     encodeFunctionData := fun call =>
       if plain_address (payee call) && amounts_fit call then None
       else Some (ErrorObject "Invalid arguments");
     addressError := fun key => "Address " ++ key ++ " is invalid.";
     memberText := fun key => "function " ++ key ++ "() { [native code] }";
     toString16 := fun _ => "0.8" |}.

(** The same world when the simulation draws its one failure in twenty. *)
Definition congested : Oracle :=
  {| fetch := fetch calm;
     sendTransaction := sendTransaction calm;
     random := fun _ => 0.01%float;
     now := now calm;
     parseUnits := parseUnits calm;
     encodeFunctionData := encodeFunctionData calm;
     addressError := addressError calm;
     memberText := memberText calm;
     toString16 := toString16 calm |}.

Definition emptyWorld : World := {| calls := []; fetched := 0; drawn := 0 |}.

(** How many times the simulation's network delay was awaited. *)
Definition simulations (w : World) : nat :=
  List.length (filter (fun c => match c with Sleep _ => true | _ => false end) (calls w)).

(** A computation that awaits no simulated delay. *)
Definition quiet {A} (m : M A) : Prop :=
  forall w c w', m w = (c, w') -> simulations w' = simulations w.

(** [n] is the integer nearest to the finite number [x], the upper one of
    two that are as near: n - 1/2 <= x < n + 1/2, on the exact value
    v * 2^e of [x]. *)
Definition nearest_integer_to (x : number) (n : Z) : Prop :=
  match Prim2SF x with
  | S754_zero _ => n = 0
  | S754_finite s m e =>
      let v := if s then Z.neg m else Z.pos m in
      if 0 <=? e then n = v * 2 ^ e
      else (2 * n - 1) * 2 ^ (- e) <= 2 * v < (2 * n + 1) * 2 ^ (- e)
  | _ => False
  end.


(** The timers the runtime has armed are the ones the state accounts for:
    both of them while the schedule is active, none while it is paused. *)
Definition armed_as_expected (sys : Sys) : Prop :=
  if isActive (config (hook sys))
  then exists c i r p,
         countdownRef sys = Some c /\ intervalRef sys = Some i /\ c <> i
         /\ timers sys = [(c, CountdownTimer); (i, SwapTimer r p)]
  else timers sys = [] /\ intervalRef sys = None /\ countdownRef sys = None.


(** ** More of the code

    The quote of [realSwapService.ts], the slider's drag handler of
    [GameSlider.tsx], and the manual swap of [InvisibleSwapTransaction.tsx]
    as the interface wires it to the hook. *)



(** [Math.min] of two numbers: NaN if either is NaN, and -0 below +0. *)
Definition Math_min (x y : number) : number :=
  if PrimFloat.is_nan x then x
  else if PrimFloat.is_nan y then y
  else if (x <? y)%float then x
  else if (y <? x)%float then y
  else if get_sign x then x else y.

(** [GameSlider.tsx], line 151: the value a drag hands to [onChange], from
    the pointer position and the track's left edge and width. *)
Definition dragValue (pointX rectLeft rectWidth : number) : number :=
  Math_max 0 (Math_min 100 (((pointX - rectLeft) / rectWidth) * 100))%float.

(** The props of [InvisibleSwapTransaction]. *)
Record SwapProps := {
  prop_sourceToken : Token;
  prop_targetToken : Token;
  prop_amountUSD : string;
  prop_disabled : bool;
  prop_isExecuting : bool
}.

(** [SwapInterface], lines 358-372: the manual swap is rendered while the
    balance is positive, with these props and [handleOnchainKitSwap] as
    [onSwapComplete]. *)
Definition manualSwapProps (sys : Sys) : option SwapProps :=
  let balance := parseFloat (orZero (w_balance (wallet sys))) in
  if (0 <? balance)%float then
    Some {| prop_sourceToken := sourceToken (config (hook sys));
            prop_targetToken := targetToken (config (hook sys));
            prop_amountUSD := toFixed (balance * 0.01)%float 2;
            prop_disabled := (balance =? 0)%float;
            prop_isExecuting := isExecutingSwap (hook sys) |}
  else None.

(** [InvisibleSwapTransaction.tsx], lines 46-79: one whole run of
    [handleInvisibleSwap], its [executeRealSwap] answered by [o];
    [isLoading] is the component's own flag as the callback sees it.  The
    run hands its result to [handleOnchainKitSwap]. *)
Definition handleInvisibleSwap (props : SwapProps) (isLoading : bool) (o : Oracle)
    (sys : Sys) : Sys :=
  match w_address (wallet sys) with
  | None => sys
  | Some address =>
      if String.eqb address "" || negb (w_sendTransaction (wallet sys))
         || isLoading || prop_disabled props
      then sys
      else
        let '(settled, w) :=
          executeRealSwap o (prop_sourceToken props) (prop_targetToken props)
            (prop_amountUSD props) address (world sys) in
        let result :=
          match settled with
          | Normal result => result
          | Abrupt error =>
              {| success := false; txHash := None;
                 error := Some (match error with
                                | ErrorObject message => message
                                | OtherValue => "Swap failed"
                                end);
                 amountIn := prop_amountUSD props; amountOut := "0"; price := None;
                 isReal := None; isEnhancedSimulation := None; note := None |}
          end in
        {| hook := handleOnchainKitSwap result (hook sys); wallet := wallet sys;
           intervalRef := intervalRef sys; countdownRef := countdownRef sys;
           timers := timers sys; pending := pending sys; fresh := fresh sys;
           world := w; refreshes := refreshes sys |}
  end.

(** Everything that can happen to the interface: the events of the hook,
    and a click on the manual swap's button, which is there while the
    manual swap is rendered and is disabled while [disabled], [isLoading]
    or [isExecuting] holds ([InvisibleSwapTransaction.tsx], lines 144-148). *)
Inductive Action :=
| HookEvent (e : Event)
| ManualSwap (isLoading : bool) (o : Oracle).

Definition perform (a : Action) (sys : Sys) : Sys :=
  match a with
  | HookEvent e => step e sys
  | ManualSwap isLoading o =>
      match manualSwapProps sys with
      | Some props =>
          if prop_disabled props || isLoading || prop_isExecuting props then sys
          else handleInvisibleSwap props isLoading o sys
      | None => sys
      end
  end.

Definition play (actions : list Action) (sys : Sys) : Sys :=
  fold_left (fun s a => perform a s) actions sys.

(** ** Vocabulary of the further statements *)

(** How many entries of a log are transactions, and how many price requests. *)
Definition transactionsIn (cs : list ExternalCall) : nat :=
  List.length (filter (fun c => match c with SendTransaction _ => true | _ => false end) cs).

(** What every transaction of the service looks like: sent to the router
    with 300000 gas, one route between the two given addresses through the
    volatile pool of the factory, paid out to [user]; a value is attached
    exactly when the call is [swapExactETHForTokens]. *)
Definition routerTransaction (fromAddress toAddress user : string) (req : TxRequest) : Prop :=
  tx_to req = AERODROME_ROUTER /\ tx_gas req = 300000
  /\ match tx_data req with
     | swapExactETHForTokens _ routes to _ =>
         routes = [{| route_from := fromAddress; route_to := toAddress;
                      stable := false; factory := AERODROME_FACTORY |}]
         /\ to = user /\ tx_value req <> None
     | swapExactTokensForTokens _ _ routes to _ =>
         routes = [{| route_from := fromAddress; route_to := toAddress;
                      stable := false; factory := AERODROME_FACTORY |}]
         /\ to = user /\ tx_value req = None
     end.

(** What the wallet function returned and the amount, for a result that
    reports a real, successful swap. *)
Definition success_of (c : Completion SwapResult) : option (option string * string) :=
  match c with
  | Normal r =>
      match success r, isReal r with
      | true, Some true => Some (txHash r, amountIn r)
      | _, _ => None
      end
  | Abrupt _ => None
  end.

(** Why the body of a real swap can stop after its two price requests:
    [parseUnits] or [BigInt] throws, or [encodeFunctionData] refuses the
    call, which it always does when a symbol names a member of
    [Object.prototype]. *)
Definition stops_after_prices (o : Oracle) (src tgt : Token) (user : string) : Prop :=
  (exists s d t, parseUnits o s d = Abrupt t)
  \/ integer_value (Math_floor (now o / 1000) + 1200)%float = None
  \/ inherited (symbol src) = true
  \/ inherited (symbol tgt) = true
  \/ (exists call t, payee call = user /\ encodeFunctionData o call = Some t).


(** A price request gets no usable answer: not a number, or 0 or NaN
    (line 103). *)
Definition unusable (answer : FetchOutcome) : Prop :=
  forall q, answer = FetchJson (UsdNumber q) -> falsy q = true.

(** The checks an attempt has to pass before the executor raises its flag
    (lines 70-86). *)
Definition guards_pass (r : Render) (user : string) : Prop :=
  r_isExecutingSwap r = false /\ r_address r = Some user
  /\ String.eqb user "" = false /\ r_sendTransaction r = true.






(** The configuration follows the controls: the frequency is the mapper's
    value for the slider and tier on display, and the percentage is 1. *)
Definition config_follows_controls (st : HookState) : Prop :=
  frequency (config st) = calculateFrequency (sliderValue st) (currentTier st)
  /\ percentage (config st) = 1%float.


(** The parts of the state the frequency is computed from. *)
Definition same_controls (st st' : HookState) : Prop :=
  frequency (config st') = frequency (config st)
  /\ percentage (config st') = percentage (config st)
  /\ sliderValue st' = sliderValue st /\ currentTier st' = currentTier st.

(** * Properties *)

(** ** The built-ins on sample values *)

Example parseFloat_examples :
  (parseFloat "0.00" = 0 /\ parseFloat "0" = 0 /\ parseFloat "12.34" = 12.34 /\
   parseFloat "0.1" = 0.1 /\ parseFloat " -7.5e2xyz" = (-750) /\
   parseFloat ".5" = 0.5 /\ parseFloat "5." = 5 /\ parseFloat "1e21" = 1e21 /\
   parseFloat "abc" = nan /\ parseFloat "" = nan /\ parseFloat "." = nan /\
   parseFloat "3e" = 3 /\ parseFloat "2.2250738585072014e-308" = 2.2250738585072014e-308 /\
   parseFloat "-0" = neg_zero /\ parseFloat "123456789012345678901234567890" = 123456789012345678901234567890 /\
   parseFloat "0.30000000000000004" = 0.30000000000000004 /\
   parseFloat "Infinity" = infinity)%float.
Proof. repeat split; vm_compute; reflexivity. Qed.

Example toFixed_examples :
  toFixed 1 2 = "1.00" /\ toFixed 0.005 2 = "0.01" /\ toFixed 1.005 2 = "1.00" /\
  toFixed 2500 2 = "2500.00" /\ toFixed (-1.5) 0 = "-2" /\ toFixed 0.000001 6 = "0.000001" /\
  toFixed 12.345678 6 = "12.345678" /\ toFixed nan 2 = "NaN" /\ toFixed 0.1 2 = "0.10" /\
  toFixed 2.5 0 = "3" /\ toFixed 1e20 2 = "100000000000000000000.00" /\ toFixed (-0.001) 2 = "-0.00".
Proof. repeat split; vm_compute; reflexivity. Qed.

Example toFixed_exponent_examples :
  toFixed 1e21 2 = "1e+21" /\ toFixed 1.5e21 2 = "1.5e+21" /\
  toFixed (-1e21) 2 = "-1e+21" /\ toFixed 9.96e21 0 = "9.96e+21" /\
  toFixed 1180591620717411303424 2 = "1.1805916207174113e+21" /\
  toFixed 1.7976931348623157e308 6 = "1.7976931348623157e+308" /\
  toFixed 999999999999999900000 2 = "999999999999999868928.00".
Proof. repeat split; vm_compute; reflexivity. Qed.

Example decimal_units_examples :
  decimal_units "1.00" 6 = Normal 1000000 /\
  decimal_units "0.000396000000000000" 18 = Normal 396000000000000 /\
  decimal_units "1.2345675" 6 = Normal 1234568 /\
  decimal_units "-2.5" 0 = Normal (-3) /\
  (exists t, decimal_units "NaN" 18 = Abrupt t) /\
  (exists t, decimal_units "1e+21" 18 = Abrupt t).
Proof. repeat split; try (vm_compute; reflexivity); eexists; vm_compute; reflexivity. Qed.

Example string_examples :
  includes (toLowerCase "User Rejected the request") "user rejected" = true /\
  includes "abc" "" = true /\ includes "" "" = true /\ includes "abc" "bd" = false.
Proof. repeat split; vm_compute; reflexivity. Qed.

Example round_examples :
  (Math_round 30.5 = 31 /\ Math_round 2.4 = 2 /\ Math_round (-2.5) = (-2) /\
   Math_round (-0.2) = neg_zero /\ Math_round 30500 = 30500)%float.
Proof. repeat split; vm_compute; reflexivity. Qed.


(** ** The frequency mapper *)

(** Two closed numbers that differ are told apart by evaluation. *)
Ltac numbers_differ :=
  let H := fresh in
  intro H;
  match type of H with
  | _ = ?b => apply (f_equal (fun z => PrimFloat.Leibniz.eqb z b)) in H
  end;
  vm_compute in H; discriminate H.

Lemma find_tier (c : SliderTier) :
  In c SLIDER_TIERS ->
  find (fun c' => FrequencyTier_eqb (tier c') (tier c)) SLIDER_TIERS = Some c.
Proof.
  intros H. repeat (destruct H as [<- | H]; [reflexivity|]). destruct H.
Qed.

Lemma calculateFrequency_unfold (c : SliderTier) (value : number) :
  In c SLIDER_TIERS ->
  calculateFrequency value (tier c) = Math_round (secondsFor c value * 1000)%float.
Proof.
  intros H. unfold calculateFrequency. rewrite (find_tier c H). reflexivity.
Qed.

(** C3. For every tier of [SLIDER_TIERS], with range [min, max], the mapper
    computes seconds = min + (max - min) * (1 - value/100) and returns
    [Math.round] of it in milliseconds; the tier [seconds] is 1 to 60, and
    there the control values 0, 100 and 50 give 60000, 1000 and 30500 ms. *)
Theorem calculateFrequency_linear_inverted :
  Forall (fun c => forall value,
            calculateFrequency value (tier c)
            = Math_round ((min c + (max c - min c) * (1 - value / 100)) * 1000)%float)
         SLIDER_TIERS
  /\ find (fun c => FrequencyTier_eqb (tier c) seconds) SLIDER_TIERS
     = Some {| tier := seconds; min := 1; max := 60; label := "Seconds" |}
  /\ calculateFrequency 0 seconds = 60000%float
  /\ calculateFrequency 100 seconds = 1000%float
  /\ calculateFrequency 50 seconds = 30500%float.
Proof.
  split.
  - apply Forall_forall. intros c Hc value.
    apply (calculateFrequency_unfold c value Hc).
  - repeat split; vm_compute; reflexivity.
Qed.

(** C4, as stated, fails: at control value 50 the tier [seconds] gives
    30500 ms, which is no multiple of 1000, and differs from what rounding
    to whole seconds first would give (31 s, 31000 ms). *)
Lemma calculateFrequency_not_whole_seconds :
  (0 <=? 50)%float = true /\ (50 <=? 100)%float = true /\
  integer_value (calculateFrequency 50 seconds) = Some 30500 /\
  (forall k : Z, integer_value (calculateFrequency 50 seconds) <> Some (1000 * k)) /\
  (Math_round (1 + (60 - 1) * (1 - 50 / 100)) * 1000)%float = 31000%float /\
  calculateFrequency 50 seconds
  <> (Math_round (1 + (60 - 1) * (1 - 50 / 100)) * 1000)%float.
Proof.
  assert (E : integer_value (calculateFrequency 50 seconds) = Some 30500)
    by (vm_compute; reflexivity).
  repeat split; try (vm_compute; reflexivity).
  - intros k. rewrite E. intros H.
    assert (H' : 30500 = 1000 * k) by congruence. lia.
  - numbers_differ.
Qed.

(** *** [Math.round] gives integers

    The integers below 2^53 in absolute value are numbers, and [Math.round]
    of a finite number is one of them unless the number is an integer
    already. *)

Lemma digits2_pos_bounds (m : positive) :
  2 ^ (Z.pos (digits2_pos m) - 1) <= Z.pos m < 2 ^ Z.pos (digits2_pos m).
Proof.
  assert (E : forall p : positive, 2 ^ Z.pos p = 2 * 2 ^ (Z.pos p - 1)).
  { intros p. rewrite <- Z.pow_succ_r by lia. f_equal. lia. }
  induction m as [p IH | p IH |]; cbn [digits2_pos].
  - rewrite Pos2Z.inj_succ, Z.pow_succ_r by lia.
    replace (Z.succ (Z.pos (digits2_pos p)) - 1) with (Z.pos (digits2_pos p)) by lia.
    specialize (E (digits2_pos p)). lia.
  - rewrite Pos2Z.inj_succ, Z.pow_succ_r by lia.
    replace (Z.succ (Z.pos (digits2_pos p)) - 1) with (Z.pos (digits2_pos p)) by lia.
    specialize (E (digits2_pos p)). lia.
  - cbn. lia.
Qed.

Lemma iter_xO_value (m k : positive) :
  Z.pos (Pos.iter xO m k) = Z.pos m * 2 ^ Z.pos k
  /\ digits2_pos (Pos.iter xO m k) = (digits2_pos m + k)%positive.
Proof.
  induction k as [|k IH] using Pos.peano_ind.
  - cbn [Pos.iter]. split; [rewrite Pos2Z.inj_xO; lia|]. cbn [digits2_pos]. lia.
  - rewrite Pos.iter_succ. destruct IH as [V D]. split.
    + rewrite Pos2Z.inj_xO, V, Pos2Z.inj_succ, Z.pow_succ_r by lia. lia.
    + cbn [digits2_pos]. rewrite D. lia.
Qed.

(** A mantissa of 53 bits with an exponent from -52 to 0 needs no rounding. *)
Lemma binary_round_aux_exact (s : bool) (m : positive) (e : Z) :
  Z.pos (digits2_pos m) = 53 -> -52 <= e <= 0 ->
  binary_round_aux prec emax s (Z.pos m) e loc_Exact = S754_finite s m e
  /\ valid_binary (S754_finite s m e) = true.
Proof.
  intros D He.
  assert (F : fexp prec emax (Z.pos (digits2_pos m) + e) = e).
  { unfold fexp, SpecFloat.emin, prec, emax. rewrite D. lia. }
  assert (L : (e <=? emax - prec) = true) by (apply Z.leb_le; unfold emax, prec; lia).
  split.
  - unfold binary_round_aux, shr_fexp. cbn [shr_record_of_loc Zdigits2].
    rewrite F, Z.sub_diag. cbn [shr shr_m loc_of_shr_record round_nearest_even Zdigits2].
    rewrite F, Z.sub_diag. cbn [shr shr_m]. rewrite L. reflexivity.
  - unfold SpecFloat.valid_binary, bounded, canonical_mantissa.
    rewrite F, Z.eqb_refl. exact L.
Qed.

Lemma binary_round_small (s : bool) (m : positive) :
  Z.pos m < 2 ^ 53 ->
  exists m' e,
    binary_round prec emax s m 0 = S754_finite s m' e
    /\ valid_binary (S754_finite s m' e) = true
    /\ -52 <= e <= 0 /\ Z.pos m' = Z.pos m * 2 ^ (- e).
Proof.
  intros B.
  pose proof (digits2_pos_bounds m) as [Lo _].
  assert (D : 1 <= Z.pos (digits2_pos m) <= 53).
  { split; [lia|].
    destruct (Z_le_gt_dec (Z.pos (digits2_pos m)) 53) as [|G]; [assumption|].
    exfalso.
    assert (2 ^ 53 <= 2 ^ (Z.pos (digits2_pos m) - 1)) by (apply Z.pow_le_mono_r; lia).
    lia. }
  unfold binary_round.
  assert (F : fexp prec emax (Z.pos (digits2_pos m) + 0) = Z.pos (digits2_pos m) - 53).
  { unfold fexp, SpecFloat.emin, prec, emax. lia. }
  rewrite F. unfold shl_align.
  destruct (Z.pos (digits2_pos m) - 53 - 0) as [|p|k] eqn:E; [|lia|].
  - exists m, 0. destruct (binary_round_aux_exact s m 0) as [R V]; [lia | lia|].
    split; [exact R|]. split; [exact V|]. split; [lia|]. cbn. lia.
  - destruct (iter_xO_value m k) as [V Dg].
    change (PosDef.Pos.iter xO m k) with (Pos.iter xO m k).
    exists (Pos.iter xO m k), (Z.pos (digits2_pos m) - 53).
    destruct (binary_round_aux_exact s (Pos.iter xO m k) (Z.pos (digits2_pos m) - 53))
      as [R Vb]; [rewrite Dg, Pos2Z.inj_add; lia | lia |].
    split; [exact R|]. split; [exact Vb|]. split; [lia|].
    rewrite V. f_equal. f_equal. lia.
Qed.

(** [of_Z] is exact on the integers below 2^53 in absolute value. *)
Lemma integer_value_of_Z (n : Z) : Z.abs n < 2 ^ 53 -> integer_value (of_Z n) = Some n.
Proof.
  intros B. unfold of_Z, binary_normalize.
  destruct n as [|m|m].
  - vm_compute. reflexivity.
  - destruct (binary_round_small false m) as (m' & e & R & V & He & Hm); [exact B|].
    rewrite R. unfold integer_value. rewrite (Prim2SF_SF2Prim _ V).
    destruct (0 <=? e) eqn:E0.
    + apply Z.leb_le in E0. assert (e = 0) by lia. subst e. f_equal.
      rewrite Hm. cbn. lia.
    + assert (P : 0 < 2 ^ (- e)) by (apply Z.pow_pos_nonneg; lia).
      rewrite Hm, Z.mod_mul, Z.div_mul by lia. reflexivity.
  - destruct (binary_round_small true m) as (m' & e & R & V & He & Hm); [exact B|].
    rewrite R. unfold integer_value. rewrite (Prim2SF_SF2Prim _ V).
    assert (N : Z.neg m' = Z.neg m * 2 ^ (- e)).
    { rewrite <- !Pos2Z.opp_pos, Hm. lia. }
    destruct (0 <=? e) eqn:E0.
    + apply Z.leb_le in E0. assert (e = 0) by lia. subst e. f_equal.
      rewrite N. cbn. lia.
    + assert (P : 0 < 2 ^ (- e)) by (apply Z.pow_pos_nonneg; lia).
      rewrite N, Z.mod_mul, Z.div_mul by lia. reflexivity.
Qed.

(** The mantissa of a number has at most 53 bits. *)
Lemma mantissa_bound (x : number) (s : bool) (m : positive) (e : Z) :
  Prim2SF x = S754_finite s m e -> Z.pos m < 2 ^ 53.
Proof.
  intros H. pose proof (Prim2SF_valid x) as V. rewrite H in V.
  unfold SpecFloat.valid_binary, bounded, canonical_mantissa in V.
  apply andb_prop in V. destruct V as [V _]. apply Z.eqb_eq in V.
  unfold fexp, SpecFloat.emin, prec, emax in V.
  pose proof (digits2_pos_bounds m) as [_ Hi].
  assert (Z.pos (digits2_pos m) <= 53) by lia.
  assert (2 ^ Z.pos (digits2_pos m) <= 2 ^ 53) by (apply Z.pow_le_mono_r; lia).
  lia.
Qed.

(** [Math.round] of a finite number is the integer nearest to it; NaN and
    the infinities are returned as they are. *)
Lemma Math_round_nearest (x : number) :
  match Prim2SF x with
  | S754_nan | S754_infinity _ => Math_round x = x
  | _ => exists n, integer_value (Math_round x) = Some n /\ nearest_integer_to x n
  end.
Proof.
  unfold nearest_integer_to, Math_round.
  destruct (Prim2SF x) as [s | s | | s m e] eqn:H; try reflexivity.
  - exists 0. unfold integer_value. rewrite H. split; reflexivity.
  - cbv zeta. destruct (0 <=? e) eqn:E0.
    + eexists. unfold integer_value. rewrite H, E0. split; reflexivity.
    + apply Z.leb_gt in E0.
      pose proof (mantissa_bound x s m e H) as B.
      set (v := if s then Z.neg m else Z.pos m).
      set (d := 2 ^ (- e)).
      assert (Hd : 2 <= d).
      { unfold d. change 2 with (2 ^ 1) at 1. apply Z.pow_le_mono_r; lia. }
      assert (Hv : - 2 ^ 53 < v < 2 ^ 53).
      { unfold v. destruct s; [rewrite <- Pos2Z.opp_pos|]; lia. }
      exists ((2 * v + d) / (2 * d)). split.
      * destruct ((2 * v + d) / (2 * d) =? 0) eqn:Z0.
        { apply Z.eqb_eq in Z0. rewrite Z0. destruct s; vm_compute; reflexivity. }
        apply integer_value_of_Z.
        assert (Up : (2 * v + d) / (2 * d) < 2 ^ 53)
          by (apply Z.div_lt_upper_bound; nia).
        assert (Lo : - 2 ^ 53 + 1 <= (2 * v + d) / (2 * d))
          by (apply Z.div_le_lower_bound; nia).
        lia.
      * pose proof (Z.div_mod (2 * v + d) (2 * d)) as Q.
        pose proof (Z.mod_pos_bound (2 * v + d) (2 * d)) as R.
        nia.
Qed.

(** C4, amended. For every tier of [SLIDER_TIERS] and every control value
    the result is [Math.round(seconds * 1000)]: when that millisecond value
    is finite, the result is the integer nearest to it (the upper one of two
    that are as near), an integer number of milliseconds; when it is NaN or
    an infinity, the result is that NaN or infinity, which is what the
    control values NaN, Infinity and -Infinity give.  At the whole control
    values 0..100 the result is exactly 1000 min + 10 (max - min)
    (100 - value) ms, a multiple of 10. *)
Theorem calculateFrequency_rounds_milliseconds :
  Forall (fun c =>
            (forall value,
               let ms := (secondsFor c value * 1000)%float in
               match Prim2SF ms with
               | S754_nan | S754_infinity _ => calculateFrequency value (tier c) = ms
               | _ => exists n,
                        integer_value (calculateFrequency value (tier c)) = Some n
                        /\ nearest_integer_to ms n
               end)
            /\ calculateFrequency nan (tier c) = nan
            /\ calculateFrequency infinity (tier c) = neg_infinity
            /\ calculateFrequency neg_infinity (tier c) = infinity
            /\ Forall (fun n =>
                 integer_value (calculateFrequency (of_Z n) (tier c))
                 = wholeValueFrequency c n
                 /\ exists ms, wholeValueFrequency c n = Some (10 * ms))
                 wholeValues)
         SLIDER_TIERS.
Proof.
  apply Forall_forall. intros c Hc. split; [|split; [|split; [|split]]].
  - intros value ms. rewrite (calculateFrequency_unfold c value Hc). fold ms.
    exact (Math_round_nearest ms).
  - repeat (destruct Hc as [<- | Hc]; [vm_compute; reflexivity|]). destruct Hc.
  - repeat (destruct Hc as [<- | Hc]; [vm_compute; reflexivity|]). destruct Hc.
  - repeat (destruct Hc as [<- | Hc]; [vm_compute; reflexivity|]). destruct Hc.
  - assert (G : forallb (fun n =>
        match integer_value (calculateFrequency (of_Z n) (tier c)),
              wholeValueFrequency c n with
        | Some a, Some b => (a =? b) && (b mod 10 =? 0)
        | _, _ => false
        end) wholeValues = true).
    { repeat (destruct Hc as [<- | Hc]; [vm_compute; reflexivity|]). destruct Hc. }
    rewrite forallb_forall in G. apply Forall_forall. intros n Hn.
    specialize (G n Hn).
    destruct (integer_value (calculateFrequency (of_Z n) (tier c))) as [a|]; [|discriminate].
    destruct (wholeValueFrequency c n) as [b|]; [|discriminate].
    apply andb_prop in G. destruct G as [G1 G2].
    apply Z.eqb_eq in G1. apply Z.eqb_eq in G2. subst b. split; [reflexivity|].
    exists (a / 10). f_equal. apply Z.div_exact in G2; lia.
Qed.

(** ** History and totals *)

Lemma swapHistory_record (r : SwapResult) (st : HookState) :
  swapHistory (handleOnchainKitSwap r st) = r :: firstn 9 (swapHistory st).
Proof. unfold handleOnchainKitSwap. destruct (success r); reflexivity. Qed.

Lemma totalSwapped_record (r : SwapResult) (st : HookState) :
  totalSwapped (handleOnchainKitSwap r st)
  = if success r then (totalSwapped st + parseFloat (amountIn r))%float
    else totalSwapped st.
Proof. unfold handleOnchainKitSwap. destruct (success r); reflexivity. Qed.

Lemma recordAll_app (xs ys : list SwapResult) (st : HookState) :
  recordAll (xs ++ ys) st = recordAll ys (recordAll xs st).
Proof. apply fold_left_app. Qed.

Lemma firstn_cons_firstn {A} (n : nat) (x : A) (l : list A) :
  x :: firstn n (firstn (S n) l) = firstn (S n) (x :: l).
Proof.
  change (firstn (S n) (x :: l)) with (x :: firstn n l).
  f_equal. rewrite firstn_firstn. f_equal. lia.
Qed.

Lemma swapHistory_recordAll (outcomes : list SwapResult) :
  swapHistory (recordAll outcomes initialState) = firstn 10 (rev outcomes).
Proof.
  induction outcomes as [|r outcomes IH] using rev_ind.
  - reflexivity.
  - rewrite recordAll_app. simpl. rewrite swapHistory_record, IH.
    rewrite rev_app_distr. simpl rev. simpl app.
    apply (firstn_cons_firstn 9).
Qed.

(** C6. Recording prepends the outcome to the first nine entries of the
    history, so from the empty history of a new hook the history after any
    sequence of recordings is its last ten outcomes, newest first; after
    twelve recordings it has exactly ten entries and entry 0 is the
    twelfth outcome. *)
Theorem history_newest_first_bounded (outcomes : list SwapResult) (last : SwapResult) :
  List.length outcomes = 11%nat ->
  (forall r st, swapHistory (handleOnchainKitSwap r st) = r :: firstn 9 (swapHistory st))
  /\ (forall rs, swapHistory (recordAll rs initialState) = firstn 10 (rev rs))
  /\ (forall rs, List.length (swapHistory (recordAll rs initialState))
                 = Nat.min 10 (List.length rs))
  /\ List.length (swapHistory (recordAll (outcomes ++ [last]) initialState)) = 10%nat
  /\ nth_error (swapHistory (recordAll (outcomes ++ [last]) initialState)) 0 = Some last.
Proof.
  intros H12.
  assert (L : forall rs, List.length (swapHistory (recordAll rs initialState))
                         = Nat.min 10 (List.length rs)).
  { intros rs. rewrite swapHistory_recordAll, length_firstn, length_rev. reflexivity. }
  repeat split.
  - apply swapHistory_record.
  - apply swapHistory_recordAll.
  - exact L.
  - rewrite L, length_app, H12. reflexivity.
  - rewrite swapHistory_recordAll, rev_app_distr. reflexivity.
Qed.

Lemma history_newest_first_bounded_witness :
  let attempts := map (fun n => outcome true (toFixed (of_Z (Z.of_nat n)) 2)) (seq 1 11) in
  List.length (swapHistory (recordAll (attempts ++ [outcome true "12.00"]) initialState))
  = 10%nat
  /\ nth_error (swapHistory (recordAll (attempts ++ [outcome true "12.00"]) initialState)) 0
     = Some (outcome true "12.00").
Proof.
  intros attempts.
  exact (proj2 (proj2 (proj2
           (history_newest_first_bounded attempts (outcome true "12.00") eq_refl)))).
Defined.

Lemma totalSwapped_recordAll (outcomes : list SwapResult) (st : HookState) :
  totalSwapped (recordAll outcomes st)
  = fold_left (fun acc r => (acc + parseFloat (amountIn r))%float)
      (filter success outcomes) (totalSwapped st).
Proof.
  revert st. induction outcomes as [|r outcomes IH]; intros st.
  - reflexivity.
  - simpl. unfold recordAll in IH. rewrite IH, totalSwapped_record.
    destruct (success r); reflexivity.
Qed.

Lemma totalSwapped_startDCA (r : Render) (sys : Sys) :
  totalSwapped (hook (startDCA r sys)) = totalSwapped (hook sys).
Proof.
  unfold startDCA. destruct (isActive (r_config r)); [reflexivity|].
  destruct (_ =? _)%float; reflexivity.
Qed.

Lemma totalSwapped_rerun (before after : HookState) :
  totalSwapped (rerunFrequencyEffect before after) = totalSwapped after.
Proof.
  unfold rerunFrequencyEffect. destruct (_ && _); reflexivity.
Qed.

(** C7. The running total is the sum of [amountIn] over the successful
    recorded outcomes: recording a failure leaves it as it is, recording a
    success adds the amount, and starting, stopping, reconfiguring and the
    countdown leave it as it is; 5 (success), 3 (failure), 2 (success)
    give 7, shown as 7.00. *)
Theorem total_is_successful_volume :
  (forall r st,
     totalSwapped (handleOnchainKitSwap r st)
     = if success r then (totalSwapped st + parseFloat (amountIn r))%float
       else totalSwapped st)
  /\ (forall outcomes,
        totalSwapped (recordAll outcomes initialState) = successfulVolume outcomes)
  /\ (forall sys, totalSwapped (hook (step Start sys)) = totalSwapped (hook sys))
  /\ (forall sys, totalSwapped (hook (step Stop sys)) = totalSwapped (hook sys))
  /\ (forall sys v, totalSwapped (hook (step (SliderChange v) sys)) = totalSwapped (hook sys))
  /\ (forall sys t, totalSwapped (hook (step (TierChange t) sys)) = totalSwapped (hook sys))
  /\ (forall sys a b, totalSwapped (hook (step (UpdateTokens a b) sys))
                      = totalSwapped (hook sys))
  /\ (forall sys, totalSwapped (hook (step SwapTokens sys)) = totalSwapped (hook sys))
  /\ (forall sys, totalSwapped (hook (with_hook countdownTick sys)) = totalSwapped (hook sys))
  /\ totalSwapped (recordAll [outcome true "5"; outcome false "3"; outcome true "2"]
                     initialState) = 7%float
  /\ toFixed 7 2 = "7.00".
Proof.
  repeat split; intros; try reflexivity.
  - apply totalSwapped_record.
  - apply totalSwapped_recordAll.
  - apply totalSwapped_startDCA.
  - simpl. unfold handleSliderChange. rewrite totalSwapped_rerun. reflexivity.
  - simpl. unfold handleTierChange. rewrite totalSwapped_rerun. reflexivity.
Qed.

(** ** Reconfiguration *)

(** C10. [swapTokens] exchanges the two tokens of the configuration,
    leaves frequency, percentage, isActive and nextSwapIn (and the rest of
    the state) as they are, and applied twice gives back the state it
    started from. *)
Theorem swapTokens_involutive (st : HookState) :
  sourceToken (config (swapTokens st)) = targetToken (config st)
  /\ targetToken (config (swapTokens st)) = sourceToken (config st)
  /\ frequency (config (swapTokens st)) = frequency (config st)
  /\ percentage (config (swapTokens st)) = percentage (config st)
  /\ isActive (config (swapTokens st)) = isActive (config st)
  /\ nextSwapIn (config (swapTokens st)) = nextSwapIn (config st)
  /\ swapTokens (swapTokens st) = st.
Proof.
  destruct st as [[src tgt f p a n] t v h tot ex].
  repeat split; reflexivity.
Qed.

(** ** The executor's checks *)

Lemma validateRealSwap_same_token (src tgt : Token) (amount : number) (bal : string) :
  address src = address tgt ->
  exists reason, validateRealSwap src tgt amount bal = invalid reason.
Proof.
  intros E. unfold validateRealSwap.
  destruct (amount <? 0.01)%float; [eauto|].
  destruct (10000 <? amount)%float; [eauto|].
  rewrite E, String.eqb_refl. eauto.
Qed.

Lemma prepareSwap_same_token (r : Render) (user : string) :
  address (sourceToken (r_config r)) = address (targetToken (r_config r)) ->
  exists reason, prepareSwap r user = Abrupt (ErrorObject reason).
Proof.
  intros E. unfold prepareSwap.
  destruct (_ =? 0)%float; [eauto|].
  destruct (_ <? 0.01)%float; [eauto|].
  destruct (validateRealSwap_same_token _ _
              (parseFloat (orZero (r_balance r)) * (percentage (r_config r) / 100))%float
              (orZero (r_balance r)) E) as [reason ->].
  eauto.
Qed.

Lemma executeSingleSwap_same_token (r : Render) (st : HookState) :
  address (sourceToken (r_config r)) = address (targetToken (r_config r)) ->
  exists reason st', executeSingleSwap r st = Resolved (failed reason) st'.
Proof.
  intros E. unfold executeSingleSwap.
  destruct (r_isExecutingSwap r); [eauto|].
  destruct (r_address r) as [user|]; [|eauto].
  destruct (_ || _); [eauto|].
  destruct (prepareSwap_same_token r user E) as [reason ->].
  simpl. eauto.
Qed.

(** C5, as stated, fails: with both tokens the same and a balance of 0.00
    the attempt is turned down for its balance, not as a swap of a token
    with itself. *)
Lemma same_token_zero_balance_reason :
  address (sourceToken (r_config (sameTokenRender "0.00")))
  = address (targetToken (r_config (sameTokenRender "0.00")))
  /\ exists st',
       executeSingleSwap (sameTokenRender "0.00") initialState
       = Resolved (failed "Insufficient balance") st'
       /\ error (failed "Insufficient balance") <> Some "Cannot swap token with itself".
Proof.
  split; [reflexivity|]. eexists. split; [vm_compute; reflexivity|discriminate].
Qed.

(** C5, amended. When the two tokens the executor sees have the same
    address, every attempt resolves to a failure before [executeRealSwap]
    is reached: no attempt is left pending and no price request or
    transaction is made, from the timer and from a direct call alike.  The
    reason is 'Cannot swap token with itself' when the earlier checks pass
    (no attempt seen in flight, wallet connected, balance not 0, amount
    between 0.01 and 10000); the failure is then recorded in the history
    and the in-flight flag is released. *)
Theorem same_token_attempt_fails_before_any_call (r : Render) (sys : Sys) :
  address (sourceToken (r_config r)) = address (targetToken (r_config r)) ->
  (exists reason st',
     executeSingleSwap r (hook sys) = Resolved (failed reason) st'
     /\ success (failed reason) = false)
  /\ pending (runSwap r sys) = pending sys
  /\ world (runSwap r sys) = world sys
  /\ priceCalls (runSwap r sys) = priceCalls sys
  /\ swapCalls (runSwap r sys) = swapCalls sys
  /\ pending (executeSwap r sys) = pending sys
  /\ world (executeSwap r sys) = world sys
  /\ priceCalls (executeSwap r sys) = priceCalls sys
  /\ swapCalls (executeSwap r sys) = swapCalls sys
  /\ (forall user,
        r_isExecutingSwap r = false ->
        r_address r = Some user -> String.eqb user "" = false ->
        r_sendTransaction r = true ->
        let currentBalance := parseFloat (orZero (r_balance r)) in
        let swapAmount := (currentBalance * (percentage (r_config r) / 100))%float in
        (currentBalance =? 0)%float = false ->
        (swapAmount <? 0.01)%float = false ->
        (10000 <? swapAmount)%float = false ->
        exists st',
          executeSingleSwap r (hook sys)
          = Resolved (failed "Cannot swap token with itself") st'
          /\ swapHistory st'
             = failed "Cannot swap token with itself" :: firstn 9 (swapHistory (hook sys))
          /\ isExecutingSwap st' = false).
Proof.
  intros E.
  destruct (executeSingleSwap_same_token r (hook sys) E) as (reason & st' & H).
  split; [exists reason, st'; split; [exact H|reflexivity]|].
  unfold runSwap, executeSwap, priceCalls, swapCalls. rewrite H.
  repeat (split; [reflexivity|]).
  intros user Hflag Huser Hne Hsend Hb Hmin Hmax. rewrite <- H.
  unfold executeSingleSwap. rewrite Hflag, Huser, Hne, Hsend.
  unfold prepareSwap. rewrite Hb, Hmin.
  unfold validateRealSwap. rewrite Hmin, Hmax, E, String.eqb_refl.
  eexists. split; [reflexivity|]. split; reflexivity.
Qed.

Lemma same_token_attempt_fails_before_any_call_witness :
  exists st',
    executeSingleSwap (sameTokenRender "100.00") (hook (mounted connected))
    = Resolved (failed "Cannot swap token with itself") st'
    /\ swapHistory st' = [failed "Cannot swap token with itself"]
    /\ isExecutingSwap st' = false.
Proof.
  exact (proj2 (proj2 (proj2 (proj2 (proj2 (proj2 (proj2 (proj2 (proj2
           (same_token_attempt_fails_before_any_call
              (sameTokenRender "100.00") (mounted connected) eq_refl)))))))))
           userAddress eq_refl eq_refl eq_refl eq_refl eq_refl eq_refl eq_refl).
Defined.

(** ** Starting *)

Lemma startDCA_guard (r : Render) (sys : Sys) :
  isActive (r_config r) = true
  \/ (parseFloat (orZero (r_balance r)) =? 0)%float = true ->
  startDCA r sys = sys.
Proof.
  intros [H | H]; unfold startDCA.
  - rewrite H. reflexivity.
  - rewrite H. destruct (isActive (r_config r)); reflexivity.
Qed.

(** C9. [startDCA] called by the interface is guarded: when the schedule is
    already active, and when the balance parses to 0 (as "0.00" does), the
    call changes nothing: isActive and nextSwapIn stay as they were (a
    paused state stays paused with nextSwapIn 0), no timer is armed, no
    attempt is started and no external call is made. *)
Theorem start_is_guarded (sys : Sys) :
  isActive (config (hook sys)) = true
  \/ (parseFloat (orZero (w_balance (wallet sys))) =? 0)%float = true ->
  (parseFloat "0.00" =? 0)%float = true
  /\ step Start sys = sys
  /\ isActive (config (hook (step Start sys))) = isActive (config (hook sys))
  /\ nextSwapIn (config (hook (step Start sys))) = nextSwapIn (config (hook sys))
  /\ timers (step Start sys) = timers sys
  /\ pending (step Start sys) = pending sys
  /\ swapHistory (hook (step Start sys)) = swapHistory (hook sys)
  /\ world (step Start sys) = world sys.
Proof.
  intros H.
  assert (E : step Start sys = sys) by (apply startDCA_guard; exact H).
  rewrite E. repeat split; reflexivity.
Qed.

Lemma start_is_guarded_witness :
  step Start (mounted emptyWallet) = mounted emptyWallet
  /\ isActive (config (hook (step Start (mounted emptyWallet)))) = false
  /\ nextSwapIn (config (hook (step Start (mounted emptyWallet)))) = 0%float
  /\ timers (step Start (mounted emptyWallet)) = []
  /\ pending (step Start (mounted emptyWallet)) = []
  /\ calls (world (step Start (mounted emptyWallet))) = [].
Proof.
  destruct (start_is_guarded (mounted emptyWallet) (or_intror eq_refl))
    as (_ & E & _).
  rewrite E. repeat split; reflexivity.
Defined.

(** ** The fallback of a failed real swap *)

Lemma getTokenPrice_returns (o : Oracle) (sym : string) (w : World) :
  exists p id,
    getTokenPrice o sym w
    = (Normal p, {| calls := calls w ++ [PriceRequest id];
                    fetched := S (fetched w); drawn := drawn w |}).
Proof.
  unfold getTokenPrice.
  generalize (lookup sym fallbackPrices) as fb.
  generalize (match lookup sym symbolMap with
              | Some id => id
              | None => if inherited sym then memberText o sym else toLowerCase sym
              end) as id.
  intros id fb. unfold try_catch, bind, fetchPrice, throw, ret.
  destruct (fetch o (fetched w) id) as [| |[p|]]; cbv beta iota;
    try destruct (falsy p); destruct fb; try destruct (inherited sym); eauto.
Qed.

Lemma simulations_app (cs : list ExternalCall) (f d : nat) (c : ExternalCall) :
  simulations {| calls := cs ++ [c]; fetched := f; drawn := d |}
  = (simulations {| calls := cs; fetched := f; drawn := d |}
     + match c with Sleep _ => 1 | _ => 0 end)%nat.
Proof.
  unfold simulations. simpl. rewrite filter_app, length_app. destruct c; reflexivity.
Qed.

(** The simulation always returns: it makes one price request, waits once,
    and succeeds exactly when its second draw is above 0.05; only a success
    is tagged. *)
Lemma enhancedSimulation_returns (o : Oracle) (src tgt : Token) (amount : number)
    (w : World) :
  exists res w' id d,
    enhancedSimulation o src tgt amount w = (Normal res, w')
    /\ calls w' = (calls w ++ [PriceRequest id; Sleep d])%list
    /\ success res = (0.05 <? random o (S (drawn w)))%float
    /\ amountIn res = toFixed amount 2
    /\ (if success res
        then isReal res = Some false /\ isEnhancedSimulation res = Some true
        else isReal res = None /\ isEnhancedSimulation res = None
             /\ error res = Some "Simulated network congestion"
             /\ amountOut res = "0" /\ txHash res = None /\ price res = None).
Proof.
  destruct (getTokenPrice_returns o (symbol tgt) w) as (p & id & Hp).
  unfold enhancedSimulation, try_catch, bind. rewrite Hp.
  unfold Math_random, sleep, ret. cbn [calls fetched drawn].
  destruct (0.05 <? random o (S (drawn w)))%float eqn:Hs; cbn [negb];
    eexists _, _, id, _; (split; [reflexivity|]);
    cbn [calls success isReal isEnhancedSimulation error amountIn amountOut txHash price];
    rewrite <- app_assoc; repeat split.
Qed.

Lemma simulations_calls (w w' : World) (id : string) (d : number) :
  calls w' = (calls w ++ [PriceRequest id; Sleep d])%list ->
  simulations w' = S (simulations w).
Proof.
  intros H. unfold simulations. rewrite H, filter_app, length_app. cbn. lia.
Qed.

(** The body of the real swap awaits no simulated delay: each of its steps
    is quiet, and so is what is put together from quiet steps. *)
Lemma quiet_ret {A} (a : A) : quiet (ret a).
Proof. intros w c w' H. injection H as <- <-. reflexivity. Qed.

Lemma quiet_throw {A} (t : Thrown) : quiet (@throw A t).
Proof. intros w c w' H. injection H as <- <-. reflexivity. Qed.

Lemma quiet_lift {A} (c : Completion A) : quiet (lift c).
Proof. intros w c' w' H. injection H as <- <-. reflexivity. Qed.

Lemma quiet_bind {A B} (m : M A) (k : A -> M B) :
  quiet m -> (forall a, quiet (k a)) -> quiet (bind m k).
Proof.
  intros Hm Hk w c w' H. unfold bind in H.
  destruct (m w) as [[a | t] w1] eqn:E.
  - rewrite (Hk a w1 c w' H). exact (Hm w _ w1 E).
  - injection H as <- <-. exact (Hm w _ w1 E).
Qed.

Lemma quiet_try_catch {A} (m : M A) (handler : Thrown -> M A) :
  quiet m -> (forall t, quiet (handler t)) -> quiet (try_catch m handler).
Proof.
  intros Hm Hh w c w' H. unfold try_catch in H.
  destruct (m w) as [[a | t] w1] eqn:E.
  - injection H as <- <-. exact (Hm w _ w1 E).
  - rewrite (Hh t w1 c w' H). exact (Hm w _ w1 E).
Qed.

Lemma quiet_fetchPrice (o : Oracle) (coinId : string) : quiet (fetchPrice o coinId).
Proof.
  intros w c w' H. injection H as <- <-. rewrite simulations_app.
  destruct w; unfold simulations; cbn; lia.
Qed.

Lemma quiet_send (o : Oracle) (req : TxRequest) : quiet (send o req).
Proof.
  intros w c w' H. injection H as <- <-. rewrite simulations_app.
  destruct w; unfold simulations; cbn; lia.
Qed.

Create HintDb quiet.
#[local] Hint Resolve quiet_ret quiet_throw quiet_lift quiet_fetchPrice quiet_send : quiet.

Lemma quiet_getTokenPrice (o : Oracle) (sym : string) : quiet (getTokenPrice o sym).
Proof.
  unfold getTokenPrice. apply quiet_try_catch.
  - apply quiet_bind; [auto with quiet|].
    intros [| |[q|]]; try destruct (falsy q); auto with quiet.
  - intros _. destruct (lookup sym fallbackPrices); [|destruct (inherited sym)];
      auto with quiet.
Qed.

Lemma quiet_encode (o : Oracle) (call : Calldata) : quiet (encode o call).
Proof. unfold encode. destruct (encodeFunctionData o call); auto with quiet. Qed.

Lemma quiet_realSwap (o : Oracle) (src tgt : Token) (amountInUSD user : string) :
  quiet (realSwap o src tgt amountInUSD user).
Proof.
  unfold realSwap.
  destruct (_ <=? 0)%float; [auto with quiet|].
  destruct (_ || _)%bool; [auto with quiet|].
  apply quiet_bind; [apply quiet_getTokenPrice | intros fromPrice].
  apply quiet_bind; [apply quiet_getTokenPrice | intros toPrice].
  apply quiet_bind;
    [destruct (_ || _)%bool; auto with quiet | intros fromTokenAmount].
  apply quiet_bind; [auto with quiet | intros minToAmountWei].
  apply quiet_bind;
    [unfold BigInt; destruct (integer_value _); auto with quiet | intros deadline].
  destruct (lookup (symbol src) TOKEN_ADDRESSES); [|auto with quiet].
  destruct (lookup (symbol tgt) TOKEN_ADDRESSES); [|auto with quiet].
  apply quiet_bind.
  - destruct (String.eqb (symbol src) "ETH"); [|destruct (String.eqb (symbol tgt) "ETH")];
      (apply quiet_bind; [apply quiet_encode | auto with quiet]).
  - intros txHash. apply quiet_bind; [|auto with quiet].
    destruct toPrice; cbn [toFixed_of]; auto with quiet.
Qed.

(** C8, as stated, fails: an amount of 0.00 makes the real swap throw, and
    when the simulation then draws its simulated failure, what comes back
    carries no tag at all: neither isReal nor isEnhancedSimulation is set,
    and only the note tells that it is a simulation. *)
Lemma simulated_failure_carries_no_tag :
  exists res w',
    realSwap congested DEFAULT_SOURCE_TOKEN DEFAULT_TARGET_TOKEN "0.00" userAddress
      emptyWorld
    = (Abrupt (ErrorObject "Invalid swap amount"), emptyWorld)
    /\ executeRealSwap congested DEFAULT_SOURCE_TOKEN DEFAULT_TARGET_TOKEN "0.00"
         userAddress emptyWorld
       = (Normal res, w')
    /\ simulations w' = 1%nat
    /\ success res = false
    /\ error res = Some "Simulated network congestion"
    /\ isReal res = None
    /\ isEnhancedSimulation res = None
    /\ note res = Some "Smart wallet swap failed: Invalid swap amount. Showing simulation.".
Proof.
  eexists _, _.
  split; [vm_compute; reflexivity|].
  split; [vm_compute; reflexivity|].
  repeat split.
Qed.

(** C8, amended. When the body of the real swap throws, the executor runs
    the simulation exactly once and returns its result with the note 'Smart
    wallet swap failed: <message>. Showing simulation.', the message being
    the classified one.  That result is never tagged real: a simulated
    success (the simulation's second draw above 0.05) carries isReal =
    false and isEnhancedSimulation = true; a simulated failure carries
    neither tag, the error 'Simulated network congestion', amountOut '0'
    and no txHash or price.  The simulation never throws, so the failure
    of lines 298-303 is never what comes back. *)
Theorem failed_real_swap_falls_back_once
    (o : Oracle) (src tgt : Token) (amountInUSD user : string) (w w1 : World)
    (thrown : Thrown) :
  realSwap o src tgt amountInUSD user w = (Abrupt thrown, w1) ->
  let note' := "Smart wallet swap failed: " ++ errorMessageOf thrown
               ++ ". Showing simulation." in
  exists res w2,
    enhancedSimulation o src tgt (parseFloat amountInUSD) w1 = (Normal res, w2)
    /\ executeRealSwap o src tgt amountInUSD user w = (Normal (set_note res note'), w2)
    /\ simulations w1 = simulations w
    /\ simulations w2 = S (simulations w)
    /\ note (set_note res note') = Some note'
    /\ isReal (set_note res note') <> Some true
    /\ success res = (0.05 <? random o (S (drawn w1)))%float
    /\ (if success (set_note res note')
        then isReal (set_note res note') = Some false
             /\ isEnhancedSimulation (set_note res note') = Some true
        else isReal (set_note res note') = None
             /\ isEnhancedSimulation (set_note res note') = None
             /\ error (set_note res note') = Some "Simulated network congestion"
             /\ amountOut (set_note res note') = "0"
             /\ txHash (set_note res note') = None
             /\ price (set_note res note') = None).
Proof.
  intros H note'.
  destruct (enhancedSimulation_returns o src tgt (parseFloat amountInUSD) w1)
    as (res & w2 & id & d & Hsim & Hcalls & Hdraw & _ & Htag).
  exists res, w2. split; [exact Hsim|].
  split.
  { unfold executeRealSwap, try_catch at 1. rewrite H.
    unfold realSwapFailed, try_catch, bind. rewrite Hsim. reflexivity. }
  pose proof (quiet_realSwap o src tgt amountInUSD user w _ w1 H) as Hquiet.
  split; [exact Hquiet|].
  split; [rewrite <- Hquiet; exact (simulations_calls w1 w2 id d Hcalls)|].
  split; [reflexivity|].
  cbn [set_note isReal success isEnhancedSimulation error amountOut txHash price].
  split; [destruct (success res); destruct Htag as [-> _]; discriminate|].
  split; [exact Hdraw | exact Htag].
Qed.

Lemma failed_real_swap_falls_back_once_witness :
  exists res w2,
    realSwap calm DEFAULT_SOURCE_TOKEN DEFAULT_TARGET_TOKEN "0.00" userAddress emptyWorld
    = (Abrupt (ErrorObject "Invalid swap amount"), emptyWorld)
    /\ executeRealSwap calm DEFAULT_SOURCE_TOKEN DEFAULT_TARGET_TOKEN "0.00" userAddress
         emptyWorld
       = (Normal res, w2)
    /\ simulations w2 = 1%nat
    /\ note res = Some "Smart wallet swap failed: Invalid swap amount. Showing simulation.".
Proof.
  destruct (failed_real_swap_falls_back_once calm DEFAULT_SOURCE_TOKEN
              DEFAULT_TARGET_TOKEN "0.00" userAddress emptyWorld emptyWorld
              (ErrorObject "Invalid swap amount") eq_refl)
    as (res & w2 & _ & E & _ & S & N & _).
  exists (set_note res "Smart wallet swap failed: Invalid swap amount. Showing simulation."), w2.
  split; [reflexivity|]. split; [exact E|]. split; [exact S | exact N].
Defined.

(** ** The in-flight guard *)

(** A callback that sees the flag raised turns the call down and touches
    nothing. *)
Lemma executeSingleSwap_in_progress (r : Render) (st : HookState) :
  r_isExecutingSwap r = true ->
  executeSingleSwap r st = Resolved (failed "Swap already in progress") st.
Proof. intros H. unfold executeSingleSwap. rewrite H. reflexivity. Qed.

(** The callback of the current render sees the current flag. *)
Lemma executeSwap_while_executing (sys : Sys) :
  isExecutingSwap (hook sys) = true ->
  pending (step ExecuteSwap sys) = pending sys
  /\ world (step ExecuteSwap sys) = world sys
  /\ hook (step ExecuteSwap sys) = hook sys.
Proof.
  intros H. simpl. unfold executeSwap.
  rewrite executeSingleSwap_in_progress by exact H.
  repeat split; reflexivity.
Qed.

(** Whatever the awaited call settles to, the flag is lowered. *)
Lemma resume_releases_guard (settled : Completion SwapResult) (st : HookState) :
  isExecutingSwap (snd (fst (executeSingleSwap_resume settled st))) = false.
Proof.
  destruct settled as [result | thrown]; simpl.
  - unfold handleOnchainKitSwap. destruct (success result); reflexivity.
  - reflexivity.
Qed.

(** A timer callback closes over the render in which it was armed: when
    that render saw no attempt in flight, the call goes through whatever
    the flag in the state has become. *)
Lemma runSwap_reads_its_own_render (r : Render) (sys : Sys) (user : string)
    (call : SwapCall) :
  r_isExecutingSwap r = false ->
  r_address r = Some user -> String.eqb user "" = false ->
  r_sendTransaction r = true ->
  prepareSwap r user = Normal call ->
  pending (runSwap r sys)
  = (pending sys ++ [(fresh sys, {| p_call := call; p_scheduled := true |})])%list
  /\ isExecutingSwap (hook (runSwap r sys)) = true.
Proof.
  intros Hflag Huser Hne Hsend Hcall. unfold runSwap, executeSingleSwap.
  rewrite Hflag, Huser, Hne, Hsend, Hcall. split; reflexivity.
Qed.

(** The same holds of the tokens: a timer armed before the pair was
    changed keeps swapping the pair it was armed with. *)
Lemma armed_timer_keeps_its_tokens :
  let sys := run [Start; UpdateTokens DEFAULT_SOURCE_TOKEN DEFAULT_SOURCE_TOKEN; Fire 1]
               (mounted connected) in
  symbol (targetToken (config (hook sys))) = "USDC"
  /\ map (fun p => symbol (call_target (p_call (snd p)))) (pending sys) = ["ETH"].
Proof. vm_compute. split; reflexivity. Qed.

(** C2 on the code: the swap timer armed by [startDCA] keeps calling the
    [executeSingleSwap] of the render in which the schedule was started,
    whose [isExecutingSwap] is false for good.  At the fastest setting
    (tier seconds, control value 100, one firing per 1000 ms) the timer
    fires a second time before the first attempt has settled: the flag in
    the state is raised and yet the call goes through, two calls of
    [executeRealSwap] are outstanding, both reach the wallet, and the first
    to settle lowers the flag while the other is still in flight. *)
Theorem stale_guard_admits_second_attempt :
  let s0 := run [TierChange seconds; SliderChange 100; Start] (mounted connected) in
  let s1 := step (Fire 1) s0 in
  let s2 := step (Fire 1) s1 in
  let s3 := step (Settle 2 calm) s2 in
  let s4 := step (Settle 3 calm) s3 in
  frequency (config (hook s0)) = 1000%float
  /\ isExecutingSwap (hook s1) = true
  /\ map fst (pending s1) = [2%nat]
  /\ isExecutingSwap (hook s2) = true
  /\ map fst (pending s2) = [2%nat; 3%nat]
  /\ map fst (pending s3) = [3%nat]
  /\ isExecutingSwap (hook s3) = false
  /\ swapCalls s4 = 2%nat
  /\ map success (swapHistory (hook s4)) = [true; true].
Proof. vm_compute. repeat split; reflexivity. Qed.

(** ** Stopping while an attempt is in flight *)

(** When an attempt awaited by [runSwap] settles, its outcome is recorded,
    the flag is lowered and nextSwapIn is set to the frequency, whether or
    not the schedule is still active. *)
Lemma settle_scheduled_attempt (id : nat) (o : Oracle) (sys : Sys) (p : Pending) :
  find_pending id (pending sys) = Some p ->
  p_scheduled p = true ->
  let sys' := settle id o sys in
  nextSwapIn (config (hook sys')) = frequency (config (hook sys))
  /\ isActive (config (hook sys')) = isActive (config (hook sys))
  /\ timers sys' = timers sys
  /\ isExecutingSwap (hook sys') = false
  /\ exists result, swapHistory (hook sys') = result :: firstn 9 (swapHistory (hook sys)).
Proof.
  intros Hp Hs. unfold settle. rewrite Hp, Hs.
  destruct (executeRealSwap o _ _ _ _ (world sys)) as [settled w].
  destruct settled as [result | thrown]; cbn -[firstn].
  - unfold handleOnchainKitSwap. destruct (success result); cbn -[firstn]; eauto 10.
  - eauto 10.
Qed.

Lemma stopDCA_pauses (sys : Sys) :
  isActive (config (hook (stopDCA sys))) = false
  /\ nextSwapIn (config (hook (stopDCA sys))) = 0%float
  /\ frequency (config (hook (stopDCA sys))) = frequency (config (hook sys))
  /\ swapHistory (hook (stopDCA sys)) = swapHistory (hook sys)
  /\ pending (stopDCA sys) = pending sys
  /\ intervalRef (stopDCA sys) = None /\ countdownRef (stopDCA sys) = None.
Proof. repeat split; reflexivity. Qed.

(** Hence, whenever [stopDCA] runs while a scheduled attempt is pending,
    the attempt's outcome is recorded afterwards and the schedule stays
    inactive, but nextSwapIn ends at the frequency. *)
Lemma settle_after_stop (id : nat) (o : Oracle) (sys : Sys) (p : Pending) :
  find_pending id (pending sys) = Some p ->
  p_scheduled p = true ->
  let sys' := settle id o (stopDCA sys) in
  isActive (config (hook sys')) = false
  /\ nextSwapIn (config (hook sys')) = frequency (config (hook sys))
  /\ exists result, swapHistory (hook sys') = result :: firstn 9 (swapHistory (hook sys)).
Proof.
  intros Hp Hs sys'. subst sys'.
  destruct (settle_scheduled_attempt id o (stopDCA sys) p Hp Hs)
    as (Hn & Ha & _ & _ & Hh).
  split; [rewrite Ha; reflexivity|].
  split; [rewrite Hn; reflexivity | exact Hh].
Qed.

(** *** What stopping does achieve: nothing stays armed *)

Lemma armed_as_expected_ext (s s' : Sys) :
  isActive (config (hook s')) = isActive (config (hook s)) ->
  timers s' = timers s ->
  intervalRef s' = intervalRef s ->
  countdownRef s' = countdownRef s ->
  armed_as_expected s -> armed_as_expected s'.
Proof.
  unfold armed_as_expected. intros -> -> -> ->. trivial.
Qed.

Lemma config_handleOnchainKitSwap (result : SwapResult) (st : HookState) :
  config (handleOnchainKitSwap result st) = config st.
Proof. unfold handleOnchainKitSwap. destruct (success result); reflexivity. Qed.

Lemma config_executeSingleSwap (r : Render) (st : HookState) :
  match executeSingleSwap r st with
  | Resolved _ st' | Awaiting _ st' => config st' = config st
  end.
Proof.
  unfold executeSingleSwap.
  destruct (r_isExecutingSwap r); [reflexivity|].
  destruct (r_address r) as [user|]; [|reflexivity].
  destruct (_ || _); [reflexivity|].
  destruct (prepareSwap r user); reflexivity.
Qed.

Lemma isActive_rerun (before after : HookState) :
  isActive (config (rerunFrequencyEffect before after)) = isActive (config after).
Proof. unfold rerunFrequencyEffect. destruct (_ && _); reflexivity. Qed.

Lemma clearInterval_pair (c i : nat) (a b : Timer) :
  clearInterval c (clearInterval i [(c, a); (i, b)]) = [].
Proof.
  unfold clearInterval. simpl. rewrite !Nat.eqb_refl. simpl.
  destruct (Nat.eqb c i); simpl; [reflexivity|].
  rewrite Nat.eqb_refl. reflexivity.
Qed.

Lemma step_keeps_timers_accounted (e : Event) (sys : Sys) :
  armed_as_expected sys -> armed_as_expected (step e sys).
Proof.
  intros I. destruct e; simpl.
  - (* Start *)
    unfold startDCA. cbn [render r_config r_balance].
    destruct (isActive (config (hook sys))) eqn:A; [exact I|].
    destruct (_ =? _)%float; [exact I|].
    unfold armed_as_expected in *. rewrite A in I. destruct I as (T & _ & C).
    cbn. rewrite C, T. exists (fresh sys), (S (fresh sys)). eexists _, _.
    repeat split. lia.
  - (* Stop *)
    unfold armed_as_expected in *. cbn.
    destruct (isActive (config (hook sys))).
    + destruct I as (c & i & r & p & -> & -> & _ & ->).
      rewrite clearInterval_pair. repeat split.
    + destruct I as (-> & -> & ->). repeat split.
  - (* ExecuteSwap *)
    unfold executeSwap.
    pose proof (config_executeSingleSwap (render sys) (hook sys)) as C.
    destruct (executeSingleSwap (render sys) (hook sys)) as [res st | call st];
      (apply (armed_as_expected_ext sys); trivial; cbn; rewrite C; reflexivity).
  - apply (armed_as_expected_ext sys); trivial.
    cbn. unfold handleSliderChange. rewrite isActive_rerun. reflexivity.
  - apply (armed_as_expected_ext sys); trivial.
    cbn. unfold handleTierChange. rewrite isActive_rerun. reflexivity.
  - apply (armed_as_expected_ext sys); trivial.
  - apply (armed_as_expected_ext sys); trivial.
  - apply (armed_as_expected_ext sys); trivial.
    cbn. rewrite config_handleOnchainKitSwap. reflexivity.
  - apply (armed_as_expected_ext sys); trivial.
  - (* Fire *)
    destruct (find_timer id (timers sys)) as [[|r period]|]; [| |exact I].
    + apply (armed_as_expected_ext sys); trivial.
    + unfold runSwap.
      pose proof (config_executeSingleSwap r (hook sys)) as C.
      destruct (executeSingleSwap r (hook sys)) as [res st | call st];
        (apply (armed_as_expected_ext sys); trivial; cbn; rewrite C; reflexivity).
  - (* Settle *)
    unfold settle.
    destruct (find_pending id (pending sys)) as [p|]; [|exact I].
    destruct (executeRealSwap o _ _ _ _ (world sys)) as [settled w].
    destruct settled as [result | thrown]; cbn;
      (apply (armed_as_expected_ext sys); trivial; cbn;
       destruct (p_scheduled p); cbn;
       rewrite ?config_handleOnchainKitSwap; reflexivity).
Qed.

Lemma run_keeps_timers_accounted (es : list Event) (sys : Sys) :
  armed_as_expected sys -> armed_as_expected (run es sys).
Proof.
  revert sys. induction es as [|e es IH]; intros sys I; [exact I|].
  simpl. apply IH. apply step_keeps_timers_accounted. exact I.
Qed.

(** After [stopDCA], in any state the mounted component can reach, no timer
    is armed, so no firing can start another attempt. *)
Lemma stop_disarms_everything (es : list Event) (w : Wallet) (id : nat) :
  let stopped := step Stop (run es (mounted w)) in
  timers stopped = [] /\ step (Fire id) stopped = stopped.
Proof.
  intros stopped.
  assert (I : armed_as_expected stopped).
  { apply step_keeps_timers_accounted, run_keeps_timers_accounted.
    unfold armed_as_expected. cbn. repeat split. }
  unfold armed_as_expected in I.
  assert (A : isActive (config (hook stopped)) = false) by reflexivity.
  clearbody stopped.
  rewrite A in I. destruct I as (T & _). split; [exact T|].
  simpl. rewrite T. reflexivity.
Qed.

(** C1 on the code: the schedule is started, the swap timer fires and its
    attempt is suspended at the network, [stopDCA] runs, and the attempt
    settles.  The outcome is in the history, the schedule is inactive and
    no timer is armed, but nextSwapIn has been set back to the frequency,
    45000000 ms, by line 201. *)
Theorem stop_mid_attempt_countdown_resurrected :
  let begun := run [Start; Fire 1] (mounted connected) in
  let stopped := step Stop begun in
  let resolved := step (Settle 2 calm) stopped in
  map fst (pending begun) = [2%nat]
  /\ isActive (config (hook stopped)) = false
  /\ nextSwapIn (config (hook stopped)) = 0%float
  /\ map fst (pending stopped) = [2%nat]
  /\ timers stopped = []
  /\ map success (swapHistory (hook resolved)) = [true]
  /\ isActive (config (hook resolved)) = false
  /\ timers resolved = []
  /\ pending resolved = []
  /\ frequency (config (hook resolved)) = 45000000%float
  /\ nextSwapIn (config (hook resolved)) = 45000000%float
  /\ nextSwapIn (config (hook resolved)) <> 0%float.
Proof.
  cbv zeta.
  assert (E : nextSwapIn (config (hook
                (step (Settle 2 calm)
                   (step Stop (run [Start; Fire 1] (mounted connected))))))
              = 45000000%float) by (vm_compute; reflexivity).
  repeat split; try (vm_compute; reflexivity).
  rewrite E. numbers_differ.
Qed.


(** * Further properties of the code *)

(** ** Facts about numbers

    The comparisons of binary64, from the specification of the primitive
    operations. *)

Lemma same_number (x y : number) : PrimFloat.Leibniz.eqb x y = true -> x = y.
Proof. apply FloatAxioms.Leibniz.eqb_spec. Qed.

Lemma SFcompare_antisym (f g : spec_float) :
  SFcompare g f = option_map CompOpp (SFcompare f g).
Proof.
  destruct f as [s1| s1 | | s1 m1 e1], g as [s2 | s2 | | s2 m2 e2]; simpl;
    try reflexivity;
    try (destruct s1; reflexivity); try (destruct s2; reflexivity);
    try (destruct s1, s2; reflexivity).
  pose proof (Pos.compare_cont_antisym m1 m2 Eq) as A. simpl in A.
  f_equal. destruct s1, s2; try reflexivity.
  - rewrite (Z.compare_antisym e1 e2).
    destruct (e1 ?= e2)%Z; simpl; try reflexivity.
    rewrite <- A. destruct (Pos.compare_cont Eq m1 m2); reflexivity.
  - rewrite (Z.compare_antisym e1 e2).
    destruct (e1 ?= e2)%Z; simpl; try reflexivity.
    rewrite <- A. reflexivity.
Qed.

Lemma ltb_antisym (x y : number) : (x <? y)%float = true -> (y <? x)%float = false.
Proof.
  rewrite !FloatAxioms.ltb_spec. unfold SFltb. rewrite (SFcompare_antisym (Prim2SF x) (Prim2SF y)).
  destruct (SFcompare (Prim2SF x) (Prim2SF y)) as [[]|]; simpl; congruence.
Qed.

Lemma SFcompare_refl (f : spec_float) :
  SFcompare f f = match f with S754_nan => None | _ => Some Eq end.
Proof.
  destruct f as [s | s | | s m e]; simpl; try reflexivity.
  - destruct s; reflexivity.
  - rewrite Z.compare_refl.
    assert (E : Pos.compare_cont Eq m m = Eq) by apply Pos.compare_refl.
    rewrite E. destruct s; reflexivity.
Qed.

Lemma is_nan_Prim2SF (x : number) : PrimFloat.is_nan x = true -> Prim2SF x = S754_nan.
Proof.
  unfold PrimFloat.is_nan. rewrite FloatAxioms.eqb_spec. unfold SFeqb.
  rewrite SFcompare_refl. destruct (Prim2SF x); simpl; congruence.
Qed.

Lemma nan_ltb_l (x y : number) : PrimFloat.is_nan x = true -> (x <? y)%float = false.
Proof. intros H. rewrite FloatAxioms.ltb_spec, (is_nan_Prim2SF x H). reflexivity. Qed.

Lemma nan_ltb_r (x y : number) : PrimFloat.is_nan y = true -> (x <? y)%float = false.
Proof.
  intros H. rewrite FloatAxioms.ltb_spec, (is_nan_Prim2SF y H). unfold SFltb.
  destruct (Prim2SF x); reflexivity.
Qed.

Lemma nan_eqb_l (x y : number) : PrimFloat.is_nan x = true -> (x =? y)%float = false.
Proof. intros H. rewrite FloatAxioms.eqb_spec, (is_nan_Prim2SF x H). reflexivity. Qed.

Lemma nan_mul_l (x y : number) : PrimFloat.is_nan x = true -> PrimFloat.is_nan (x * y) = true.
Proof.
  intros H. unfold PrimFloat.is_nan at 1. rewrite FloatAxioms.eqb_spec, FloatAxioms.mul_spec.
  rewrite (is_nan_Prim2SF x H). reflexivity.
Qed.

(** ** The price and the quote *)

Lemma falsy_fallback (sym : string) (p : number) :
  lookup sym fallbackPrices = Some p -> falsy p = false.
Proof.
  unfold fallbackPrices. cbn [lookup].
  repeat (destruct (String.eqb _ sym); [intros H; injection H as <-; reflexivity|]).
  discriminate.
Qed.

(** The names of the members of [Object.prototype] are no token symbols. *)
Lemma inherited_unknown (sym : string) :
  inherited sym = true ->
  lookup sym fallbackPrices = None /\ lookup sym TOKEN_ADDRESSES = None.
Proof.
  unfold inherited, OBJECT_PROTOTYPE. cbn [existsb].
  repeat match goal with
         | |- context [String.eqb sym ?k] =>
             destruct (String.eqb_spec sym k) as [-> | _];
             [intros _; split; reflexivity | cbn [orb]]
         end.
  discriminate.
Qed.

Lemma known_not_inherited (sym a : string) :
  lookup sym TOKEN_ADDRESSES = Some a -> inherited sym = false.
Proof.
  intros H. destruct (inherited sym) eqn:I; [|reflexivity].
  destruct (inherited_unknown sym I) as [_ N]. congruence.
Qed.

Lemma missing_lookup (sym : string) :
  missing sym TOKEN_ADDRESSES = false ->
  (exists a, lookup sym TOKEN_ADDRESSES = Some a)
  \/ (lookup sym TOKEN_ADDRESSES = None /\ inherited sym = true).
Proof.
  unfold missing. destruct (lookup sym TOKEN_ADDRESSES) as [a|]; [eauto|].
  destruct (inherited sym); [auto | discriminate].
Qed.

(** One request; the answer when it is usable, and otherwise the fallback:
    a number that can be divided by, or the inherited member. *)
Lemma getTokenPrice_usable (o : Oracle) (sym : string) (w : World) :
  exists p id,
    getTokenPrice o sym w
    = (Normal p, {| calls := calls w ++ [PriceRequest id];
                    fetched := S (fetched w); drawn := drawn w |})
    /\ (forall q, fetch o (fetched w) id = FetchJson (UsdNumber q) ->
                  falsy q = false -> p = a_number q)
    /\ (inherited sym = false -> exists n, p = a_number n /\ falsy n = false)
    /\ (inherited sym = true -> unusable (fetch o (fetched w) id) -> p = a_member sym).
Proof.
  pose proof (falsy_fallback sym) as F.
  pose proof (inherited_unknown sym) as U.
  unfold getTokenPrice, unusable.
  generalize (match lookup sym symbolMap with
              | Some id => id
              | None => if inherited sym then memberText o sym else toLowerCase sym
              end) as id.
  intros id. unfold try_catch, bind, fetchPrice, throw, ret.
  destruct (fetch o (fetched w) id) as [| |[q|]] eqn:Hf; cbv beta iota;
    try (destruct (falsy q) eqn:Q; cbv beta iota);
    destruct (lookup sym fallbackPrices) as [fp|] eqn:L;
    try destruct (inherited sym) eqn:I;
    eexists _, id; (split; [reflexivity|]).
  all: split;
    [intros q' E Q'; rewrite Hf in E; try discriminate E; injection E as <-;
     first [reflexivity | congruence]|].
  all: split;
    [intros Hi;
     first [discriminate Hi
           | eexists; split;
             [reflexivity | first [exact Q | apply F; reflexivity | reflexivity]]]|].
  all: intros Hi Un; rewrite Hf in Un;
    first [discriminate Hi | reflexivity | destruct (U Hi); congruence
          | specialize (Un _ eq_refl); congruence].
Qed.

(** X1. [getTokenPrice] never throws and makes exactly one request.  It
    returns the answer of the price API when that is a number other than 0
    and NaN.  Otherwise it returns the fallback, which is a number that is
    neither 0 nor NaN for every symbol but the names of the members of
    [Object.prototype] (constructor, toString, ...): for those it returns
    that member, which is no number. *)
Theorem getTokenPrice_usable_but_for_inherited_names (o : Oracle) (sym : string)
    (w : World) :
  exists p id,
    getTokenPrice o sym w
    = (Normal p, {| calls := calls w ++ [PriceRequest id];
                    fetched := S (fetched w); drawn := drawn w |})
    /\ (forall q, fetch o (fetched w) id = FetchJson (UsdNumber q) ->
                  falsy q = false -> p = a_number q)
    /\ (inherited sym = false -> exists n, p = a_number n /\ falsy n = false)
    /\ (inherited sym = true -> unusable (fetch o (fetched w) id) -> p = a_member sym).
Proof.
  destruct (getTokenPrice_usable o sym w) as (p & id & H & Q & N & I).
  exists p, id. split; [exact H|]. split; [exact Q|]. split; [exact N | exact I].
Qed.


(** ** What [executeRealSwap] does to the outside world *)

(** X3. [executeRealSwap] never throws: for every answer of the price API,
    the wallet and [parseUnits], it returns a result. *)
Theorem executeRealSwap_never_throws (o : Oracle) (src tgt : Token)
    (amountInUSD user : string) (w : World) :
  exists result w', executeRealSwap o src tgt amountInUSD user w = (Normal result, w').
Proof.
  unfold executeRealSwap, try_catch at 1.
  destruct (realSwap o src tgt amountInUSD user w) as [[result | thrown] w1].
  - eexists _, _. reflexivity.
  - destruct (enhancedSimulation_returns o src tgt (parseFloat amountInUSD) w1)
      as (res & w2 & id & d & Hsim & _).
    unfold realSwapFailed, try_catch, bind. rewrite Hsim.
    eexists _, _. reflexivity.
Qed.

Lemma known_price_is_number (o : Oracle) (sym a : string) (w : World) :
  lookup sym TOKEN_ADDRESSES = Some a ->
  exists n id,
    getTokenPrice o sym w
    = (Normal (a_number n), {| calls := calls w ++ [PriceRequest id];
                               fetched := S (fetched w); drawn := drawn w |}).
Proof.
  intros H. destruct (getTokenPrice_usable o sym w) as (p & id & E & _ & N & _).
  destruct (N (known_not_inherited sym a H)) as (n & -> & _). eauto.
Qed.

(** The three ways the body of the [try] can go: it stops before any call,
    it stops after the two price requests, or it hands one transaction to
    the wallet. *)
Lemma realSwap_outcomes (o : Oracle) (src tgt : Token) (amountInUSD user : string)
    (w w' : World) (c : Completion SwapResult) :
  realSwap o src tgt amountInUSD user w = (c, w') ->
  (calls w' = calls w /\ (exists t, c = Abrupt t)
   /\ ((parseFloat amountInUSD <=? 0)%float = true
       \/ missing (symbol src) TOKEN_ADDRESSES = true
       \/ missing (symbol tgt) TOKEN_ADDRESSES = true))
  \/ (exists id1 id2,
        calls w' = (calls w ++ [PriceRequest id1; PriceRequest id2])%list
        /\ (exists t, c = Abrupt t)
        /\ stops_after_prices o src tgt user)
  \/ (exists id1 id2 req fa ta,
        calls w' = (calls w ++ [PriceRequest id1; PriceRequest id2; SendTransaction req])%list
        /\ lookup (symbol src) TOKEN_ADDRESSES = Some fa
        /\ lookup (symbol tgt) TOKEN_ADDRESSES = Some ta
        /\ routerTransaction fa ta user req
        /\ (tx_value req <> None <-> String.eqb (symbol src) "ETH" = true)
        /\ (parseFloat amountInUSD <=? 0)%float = false
        /\ encodeFunctionData o (tx_data req) = None
        /\ match sendTransaction o req with
           | Normal h => success_of c = Some (h, amountInUSD)
           | Abrupt t => c = Abrupt t
           end).
Proof.
  intros E. unfold realSwap in E.
  destruct (parseFloat amountInUSD <=? 0)%float eqn:Hpos;
    [injection E as <- <-; left; split; [reflexivity|];
     split; [eexists; reflexivity | auto]|].
  destruct (missing (symbol src) TOKEN_ADDRESSES) eqn:Msrc;
    [injection E as <- <-; left; split; [reflexivity|];
     split; [eexists; reflexivity | auto]|].
  destruct (missing (symbol tgt) TOKEN_ADDRESSES) eqn:Mtgt;
    [injection E as <- <-; left; split; [reflexivity|];
     split; [eexists; reflexivity | auto]|].
  cbn [orb] in E. right.
  unfold bind at 1 in E.
  destruct (getTokenPrice_returns o (symbol src) w) as (p1 & id1 & H1).
  rewrite H1 in E. unfold bind at 1 in E.
  set (w1 := {| calls := calls w ++ [PriceRequest id1];
                fetched := S (fetched w); drawn := drawn w |}) in *.
  destruct (getTokenPrice_returns o (symbol tgt) w1) as (p2 & id2 & H2).
  assert (P2 : forall ta, lookup (symbol tgt) TOKEN_ADDRESSES = Some ta ->
                          exists n, p2 = a_number n).
  { intros ta Hta.
    destruct (known_price_is_number o (symbol tgt) ta w1 Hta) as (n & id & Hn).
    rewrite H2 in Hn. injection Hn as -> _. eauto. }
  rewrite H2 in E. clear H1 H2.
  unfold w1 in E. cbn [calls fetched drawn] in E.
  rewrite <- app_assoc in E. cbn [app] in E. clear w1.
  set (w2 := {| calls := calls w ++ [PriceRequest id1; PriceRequest id2];
                fetched := S (S (fetched w)); drawn := drawn w |}) in E.
  assert (Stop : forall t,
            stops_after_prices o src tgt user ->
            (c, w') = (@Abrupt SwapResult t, w2) ->
            exists id1 id2,
              calls w' = (calls w ++ [PriceRequest id1; PriceRequest id2])%list
              /\ (exists t, c = Abrupt t)
              /\ stops_after_prices o src tgt user).
  { intros t R Et. injection Et as -> ->. exists id1, id2.
    split; [reflexivity|]. split; [eauto | exact R]. }
  destruct (String.eqb (symbol src) "USDC" || String.eqb (symbol src) "DAI")%bool;
    (unfold bind at 1 in E; unfold lift at 1 in E; cbv beta iota in E;
     lazymatch type of E with
     | match ?x with Normal _ => _ | Abrupt _ => _ end = _ =>
         destruct x as [fromTokenAmount | t] eqn:Hunits1
     end;
     [|left; apply (Stop t); [left; do 3 eexists; exact Hunits1 | symmetry; exact E]]);
    (unfold bind at 1 in E; unfold lift at 1 in E; cbv beta iota in E;
     lazymatch type of E with
     | match ?x with Normal _ => _ | Abrupt _ => _ end = _ =>
         destruct x as [minToAmountWei | t] eqn:Hunits2
     end;
     [|left; apply (Stop t); [left; do 3 eexists; exact Hunits2 | symmetry; exact E]]);
    (unfold bind at 1 in E; unfold BigInt at 1 in E;
     destruct (integer_value _) as [deadline|] eqn:Hdeadline;
     unfold ret at 1, throw at 1 in E; cbv beta iota in E;
     [|left; eapply Stop; [right; left; exact Hdeadline | symmetry; exact E]]).
  all: destruct (missing_lookup _ Msrc) as [(fa & Hfa) | (Hfa & Isrc)]; rewrite Hfa in E;
    [|left; eapply Stop; [right; right; left; exact Isrc | symmetry; exact E]].
  all: destruct (missing_lookup _ Mtgt) as [(ta & Hta) | (Hta & Itgt)]; rewrite Hta in E;
    [|left; eapply Stop; [right; right; right; left; exact Itgt | symmetry; exact E]].
  all: destruct (P2 ta Hta) as (n2 & ->); clear P2.
  all: unfold bind at 1 in E;
    (destruct (String.eqb (symbol src) "ETH") eqn:Heth;
     [|destruct (String.eqb (symbol tgt) "ETH")]);
    unfold bind at 1 in E; unfold encode at 1 in E.
  all: lazymatch type of E with
       | context [encodeFunctionData ?oo ?call] =>
           destruct (encodeFunctionData oo call) as [t|] eqn:Hencode;
           [unfold throw at 1 in E; left; apply (Stop t);
            [do 4 right; exists call, t; split; [reflexivity | exact Hencode]
            |symmetry; exact E]|]
       end.
  all: right; clear Stop; unfold ret at 1 in E; unfold send at 1 in E;
    cbv beta iota in E; cbn [calls fetched drawn] in E.
  all: lazymatch type of E with
       | context [sendTransaction ?oo ?r] =>
           exists id1, id2, r, fa, ta;
           destruct (sendTransaction oo r) as [h | t] eqn:Hs
       end.
  all: cbn [toFixed_of] in E; unfold bind, ret in E; injection E as <- <-;
       unfold w2; cbn [calls]; rewrite <- app_assoc; cbn [app].
  all: split; [reflexivity|]; split; [exact Hfa|]; split; [exact Hta|].
  all: split; [unfold routerTransaction; cbn; repeat split; discriminate|].
  all: split;
       [cbn; split;
        [intros N; try reflexivity; exfalso; apply N; reflexivity
        |intros D; try discriminate D; discriminate]|].
  all: split; [reflexivity|]; split; [exact Hencode | reflexivity].
Qed.

(** Every way a call of [executeRealSwap] can go, with the calls it makes. *)
Lemma executeRealSwap_cases (o : Oracle) (src tgt : Token) (amountInUSD user : string)
    (w : World) :
  exists res w' new,
    executeRealSwap o src tgt amountInUSD user w = (Normal res, w')
    /\ calls w' = (calls w ++ new)%list
    /\ ((exists id d, new = [PriceRequest id; Sleep d] /\ isReal res <> Some true
                        /\ ((parseFloat amountInUSD <=? 0)%float = true
                            \/ missing (symbol src) TOKEN_ADDRESSES = true
                            \/ missing (symbol tgt) TOKEN_ADDRESSES = true))
        \/ (exists id1 id2 id d,
              new = [PriceRequest id1; PriceRequest id2; PriceRequest id; Sleep d]
              /\ isReal res <> Some true
              /\ stops_after_prices o src tgt user)
        \/ (exists id1 id2 req fa ta,
              lookup (symbol src) TOKEN_ADDRESSES = Some fa
              /\ lookup (symbol tgt) TOKEN_ADDRESSES = Some ta
              /\ routerTransaction fa ta user req
              /\ (tx_value req <> None <-> String.eqb (symbol src) "ETH" = true)
              /\ (parseFloat amountInUSD <=? 0)%float = false
              /\ encodeFunctionData o (tx_data req) = None
              /\ ((exists t id d,
                     sendTransaction o req = Abrupt t
                     /\ new = [PriceRequest id1; PriceRequest id2; SendTransaction req;
                               PriceRequest id; Sleep d]
                     /\ isReal res <> Some true)
                  \/ (exists h,
                        sendTransaction o req = Normal h
                        /\ new = [PriceRequest id1; PriceRequest id2; SendTransaction req]
                        /\ success_of (Normal res) = Some (h, amountInUSD))))).
Proof.
  unfold executeRealSwap, try_catch at 1.
  destruct (realSwap o src tgt amountInUSD user w) as [c w1] eqn:E.
  assert (F : forall t, c = Abrupt t ->
            exists res w' id d,
              (let (c0, w'0) := (c, w1) in
               match c0 with
               | Normal a => (Normal a, w'0)
               | Abrupt t => realSwapFailed o src tgt amountInUSD t w'0
               end) = (Normal res, w')
              /\ calls w' = (calls w1 ++ [PriceRequest id; Sleep d])%list
              /\ isReal res <> Some true).
  { intros t ->.
    destruct (enhancedSimulation_returns o src tgt (parseFloat amountInUSD) w1)
      as (res & w2 & id & d & Hsim & Hcalls & _ & _ & Htag).
    unfold realSwapFailed, try_catch, bind. rewrite Hsim.
    eexists _, _, id, d. split; [reflexivity|]. split; [exact Hcalls|].
    cbn [set_note isReal]. destruct (success res); destruct Htag as [-> _]; discriminate. }
  destruct (realSwap_outcomes o src tgt amountInUSD user w w1 c E)
    as [(Hc & (t & Ht) & Hwhy) | [(id1 & id2 & Hc & (t & Ht) & Hwhy)
       | (id1 & id2 & req & fa & ta & Hc & Hfa & Hta & Hr & Hv & Hpos & Henc & Hs)]].
  - destruct (F t Ht) as (res & w' & id & d & -> & Hcalls & Hreal).
    exists res, w', [PriceRequest id; Sleep d].
    split; [reflexivity|]. split; [rewrite Hcalls, Hc; reflexivity|].
    left. exists id, d. auto.
  - destruct (F t Ht) as (res & w' & id & d & -> & Hcalls & Hreal).
    exists res, w', [PriceRequest id1; PriceRequest id2; PriceRequest id; Sleep d].
    split; [reflexivity|].
    split; [rewrite Hcalls, Hc, <- app_assoc; reflexivity|].
    right; left. exists id1, id2, id, d. auto.
  - destruct (sendTransaction o req) as [h | t] eqn:Hsend.
    + destruct c as [res | t]; [|discriminate Hs].
      exists res, w1, [PriceRequest id1; PriceRequest id2; SendTransaction req].
      split; [reflexivity|]. split; [exact Hc|].
      right; right. exists id1, id2, req, fa, ta.
      repeat (split; [assumption|]). right. exists h. repeat split; assumption.
    + destruct (F t Hs) as (res & w' & id & d & -> & Hcalls & Hreal).
      exists res, w', [PriceRequest id1; PriceRequest id2; SendTransaction req;
                       PriceRequest id; Sleep d].
      split; [reflexivity|].
      split; [rewrite Hcalls, Hc, <- app_assoc; reflexivity|].
      right; right. exists id1, id2, req, fa, ta.
      repeat (split; [assumption|]). left. exists t, id, d. repeat split; assumption.
Qed.

(** X4. A call of [executeRealSwap] hands at most one transaction to the
    wallet, and only when the amount is not a number <= 0 and both token
    symbols have a known address;
    that transaction goes to the Aerodrome router with 300000 gas, along
    the one route from the source token's address to the target's, pays
    out to the user, and carries a value exactly when the source token is
    ETH. *)
Theorem executeRealSwap_sends_one_router_transaction (o : Oracle) (src tgt : Token)
    (amountInUSD user : string) (w : World) :
  exists new,
    calls (snd (executeRealSwap o src tgt amountInUSD user w)) = (calls w ++ new)%list
    /\ (transactionsIn new <= 1)%nat
    /\ forall req, In (SendTransaction req) new ->
         (parseFloat amountInUSD <=? 0)%float = false
         /\ exists fa ta,
              lookup (symbol src) TOKEN_ADDRESSES = Some fa
              /\ lookup (symbol tgt) TOKEN_ADDRESSES = Some ta
              /\ routerTransaction fa ta user req
              /\ (tx_value req <> None <-> String.eqb (symbol src) "ETH" = true).
Proof.
  destruct (executeRealSwap_cases o src tgt amountInUSD user w)
    as (res & w' & new & -> & Hc & Hcases).
  exists new. split; [exact Hc|].
  destruct Hcases as [(id & d & -> & _) | [(id1 & id2 & id & d & -> & _)
    | (id1 & id2 & req & fa & ta & Hfa & Hta & Hr & Hv & Hpos & _ & Hsend)]].
  - split; [cbn; lia|]. intros req [H|[H|[]]]; discriminate H.
  - split; [cbn; lia|]. intros req [H|[H|[H|[H|[]]]]]; discriminate H.
  - assert (G : forall req', SendTransaction req = SendTransaction req' ->
              (parseFloat amountInUSD <=? 0)%float = false
              /\ exists fa ta,
                   lookup (symbol src) TOKEN_ADDRESSES = Some fa
                   /\ lookup (symbol tgt) TOKEN_ADDRESSES = Some ta
                   /\ routerTransaction fa ta user req'
                   /\ (tx_value req' <> None <-> String.eqb (symbol src) "ETH" = true)).
    { intros req' H. injection H as <-. split; [exact Hpos|]. exists fa, ta. auto. }
    destruct Hsend as [(t & id & d & _ & -> & _) | (h & _ & -> & _)].
    + split; [cbn; lia|].
      intros req' [H|[H|[H|[H|[H|[]]]]]]; try discriminate H. exact (G req' H).
    + split; [cbn; lia|].
      intros req' [H|[H|[H|[]]]]; try discriminate H. exact (G req' H).
Qed.

(** X5. An amount that parses to a number <= 0, and a token symbol that is
    neither one of the four known ones nor the name of a member of
    [Object.prototype], are turned down before the wallet and the price API
    are involved: the only calls are those of the fallback simulation,
    whose result is returned, never tagged real, with the note naming the
    reason. *)
Theorem executeRealSwap_rejects_before_wallet (o : Oracle) (src tgt : Token)
    (amountInUSD user : string) (w : World) :
  (parseFloat amountInUSD <=? 0)%float = true
  \/ missing (symbol src) TOKEN_ADDRESSES = true
  \/ missing (symbol tgt) TOKEN_ADDRESSES = true ->
  exists res w' id d,
    executeRealSwap o src tgt amountInUSD user w = (Normal res, w')
    /\ calls w' = (calls w ++ [PriceRequest id; Sleep d])%list
    /\ isReal res <> Some true
    /\ note res
       = Some ("Smart wallet swap failed: "
               ++ errorMessageOf
                    (ErrorObject
                       (if (parseFloat amountInUSD <=? 0)%float then "Invalid swap amount"
                        else "Unsupported token pair: " ++ symbol src ++ " -> "
                             ++ symbol tgt))
               ++ ". Showing simulation.").
Proof.
  intros H.
  assert (E : realSwap o src tgt amountInUSD user w
              = (Abrupt (ErrorObject
                           (if (parseFloat amountInUSD <=? 0)%float
                            then "Invalid swap amount"
                            else "Unsupported token pair: " ++ symbol src ++ " -> "
                                 ++ symbol tgt)), w)).
  { unfold realSwap. destruct (parseFloat amountInUSD <=? 0)%float; [reflexivity|].
    destruct H as [H | [H | H]]; [discriminate H | rewrite H; reflexivity|].
    rewrite H, orb_true_r. reflexivity. }
  destruct (enhancedSimulation_returns o src tgt (parseFloat amountInUSD) w)
    as (res & w' & id & d & Hsim & Hcalls & _ & _ & Htag).
  eexists _, w', id, d.
  unfold executeRealSwap, try_catch at 1. rewrite E.
  unfold realSwapFailed, try_catch, bind. rewrite Hsim.
  split; [reflexivity|]. split; [exact Hcalls|].
  split; [|reflexivity].
  cbn [set_note isReal]. destruct (success res); destruct Htag as [-> _]; discriminate.
Qed.

Lemma executeRealSwap_rejects_before_wallet_witness :
  exists res w' id d,
    executeRealSwap calm DEFAULT_SOURCE_TOKEN DEFAULT_TARGET_TOKEN "0" userAddress emptyWorld
    = (Normal res, w')
    /\ calls w' = [PriceRequest id; Sleep d]
    /\ isReal res <> Some true
    /\ note res = Some "Smart wallet swap failed: Invalid swap amount. Showing simulation.".
Proof.
  exact (executeRealSwap_rejects_before_wallet calm DEFAULT_SOURCE_TOKEN
           DEFAULT_TARGET_TOKEN "0" userAddress emptyWorld (or_introl eq_refl)).
Defined.

(** X6. A result of [executeRealSwap] is tagged real exactly when the
    wallet function was called and returned without throwing: a real
    result is a success that carries, as its hash, whatever that call
    returned, and the amount that was asked for; a result that is not real
    comes with no call that returned.  So with a wallet function that
    returns undefined at once, as the one of wagmi does, every transaction
    handed over is reported as a real success without a hash. *)
Theorem real_result_iff_wallet_function_returned (o : Oracle) (src tgt : Token)
    (amountInUSD user : string) (w : World) :
  exists res w' new,
    executeRealSwap o src tgt amountInUSD user w = (Normal res, w')
    /\ calls w' = (calls w ++ new)%list
    /\ (isReal res = Some true ->
        success res = true /\ amountIn res = amountInUSD
        /\ exists req,
             In (SendTransaction req) new
             /\ sendTransaction o req = Normal (txHash res))
    /\ (forall req h,
          In (SendTransaction req) new -> sendTransaction o req = Normal h ->
          isReal res = Some true /\ success res = true /\ txHash res = h).
Proof.
  destruct (executeRealSwap_cases o src tgt amountInUSD user w)
    as (res & w' & new & E & Hc & Hcases).
  exists res, w', new. split; [exact E|]. split; [exact Hc|].
  destruct Hcases as [(id & d & -> & Hreal & _) | [(id1 & id2 & id & d & -> & Hreal & _)
    | (id1 & id2 & req & fa & ta & _ & _ & _ & _ & _ & _ & Hsend)]].
  - split; [intros R; contradiction|].
    intros req h [H|[H|[]]]; discriminate H.
  - split; [intros R; contradiction|].
    intros req h [H|[H|[H|[H|[]]]]]; discriminate H.
  - destruct Hsend as [(t & id & d & Ht & -> & Hreal) | (h & Hh & -> & Hs)].
    + split; [intros R; contradiction|].
      intros req' h [H|[H|[H|[H|[H|[]]]]]]; try discriminate H.
      injection H as <-. congruence.
    + unfold success_of in Hs.
      destruct (success res) eqn:S; [|discriminate Hs].
      destruct (isReal res) as [[|]|] eqn:R; try discriminate Hs.
      injection Hs as <- ->.
      split.
      * intros _. split; [reflexivity|]. split; [reflexivity|].
        exists req. split; [right; right; left; reflexivity | exact Hh].
      * intros req' h' [H|[H|[H|[]]]]; try discriminate H.
        injection H as <-. intros Hh'. rewrite Hh in Hh'. injection Hh' as <-.
        repeat split; reflexivity.
Qed.

(** ** The executor, case by case *)

Lemma prepareSwap_throws_errors (r : Render) (user : string) (t : Thrown) :
  prepareSwap r user = Abrupt t -> exists m, t = ErrorObject m.
Proof.
  unfold prepareSwap.
  destruct (_ =? 0)%float; [intros H; injection H as <-; eauto|].
  destruct (_ <? 0.01)%float; [intros H; injection H as <-; eauto|].
  destruct (validateRealSwap _ _ _ _); [discriminate|].
  intros H; injection H as <-; eauto.
Qed.

Lemma executeSingleSwap_cases (r : Render) (st : HookState) :
  (exists m, executeSingleSwap r st = Resolved (failed m) st
             /\ forall user, ~ guards_pass r user)
  \/ (exists user m,
        guards_pass r user /\ prepareSwap r user = Abrupt (ErrorObject m)
        /\ executeSingleSwap r st
           = Resolved (failed m)
               (setIsExecutingSwap false
                  (handleOnchainKitSwap (failed m) (setIsExecutingSwap true st))))
  \/ (exists user call,
        guards_pass r user /\ prepareSwap r user = Normal call
        /\ executeSingleSwap r st = Awaiting call (setIsExecutingSwap true st)).
Proof.
  unfold executeSingleSwap, guards_pass.
  destruct (r_isExecutingSwap r) eqn:Hflag.
  { left. eexists. split; [reflexivity|]. intros user (H & _). discriminate H. }
  destruct (r_address r) as [user|] eqn:Huser.
  2:{ left. eexists. split; [reflexivity|]. intros user (_ & H & _). discriminate H. }
  destruct (String.eqb user "") eqn:Hne.
  { left. eexists. split; [reflexivity|].
    intros user' (_ & H & H' & _). injection H as <-. congruence. }
  destruct (r_sendTransaction r) eqn:Hsend.
  2:{ left. eexists. split; [reflexivity|]. intros user' (_ & _ & _ & H). discriminate H. }
  right. cbn [orb negb].
  destruct (prepareSwap r user) as [call | t] eqn:Hp.
  - right. exists user, call. auto.
  - left. destruct (prepareSwap_throws_errors r user t Hp) as (m & ->).
    exists user, m. auto.
Qed.

(** X7. An attempt that resolves without reaching [executeRealSwap] is
    always a failure with amountIn '0' and amountOut '0' that leaves the
    configuration and the running total as they were.  When the callback
    saw an attempt in flight or no wallet, nothing else changes either: the
    failure is not recorded.  Otherwise the failure is recorded at the head
    of the history and the in-flight flag ends lowered. *)
Theorem resolved_attempt_is_contained (r : Render) (st st' : HookState)
    (result : SwapResult) :
  executeSingleSwap r st = Resolved result st' ->
  success result = false /\ amountIn result = "0" /\ amountOut result = "0"
  /\ config st' = config st /\ totalSwapped st' = totalSwapped st
  /\ (((forall user, ~ guards_pass r user) /\ st' = st)
      \/ ((exists user, guards_pass r user)
          /\ swapHistory st' = result :: firstn 9 (swapHistory st)
          /\ isExecutingSwap st' = false)).
Proof.
  intros E.
  destruct (executeSingleSwap_cases r st)
    as [(m & H & G) | [(user & m & G & _ & H) | (user & call & _ & _ & H)]];
    rewrite H in E; [| |discriminate E]; injection E as <- <-.
  - repeat split; try reflexivity. left. split; [exact G|reflexivity].
  - repeat split; try reflexivity. right. split; [eauto|]. split; reflexivity.
Qed.

Lemma resolved_attempt_is_contained_witness :
  exists st',
    executeSingleSwap (render (mounted emptyWallet)) (hook (mounted emptyWallet))
    = Resolved (failed "Insufficient balance") st'
    /\ swapHistory st' = [failed "Insufficient balance"]
    /\ isExecutingSwap st' = false /\ totalSwapped st' = 0%float.
Proof.
  eexists. split; [vm_compute; reflexivity|].
  destruct (resolved_attempt_is_contained
              (render (mounted emptyWallet)) (hook (mounted emptyWallet)) _
              (failed "Insufficient balance") eq_refl)
    as (_ & _ & _ & _ & T & [(G & _) | (_ & H & F)]).
  - exfalso. apply (G userAddress). repeat split.
  - split; [exact H|]. split; [exact F | exact T].
Defined.

(** X8. An attempt reaches [executeRealSwap] only after every check has
    passed: the callback saw no attempt in flight and a connected wallet,
    the balance is not 0, 1% of it (balance * percentage / 100) is neither
    below 0.01 nor above 10000 nor above the balance, and the two tokens
    have different addresses.  The call is made for that amount to two
    decimals, with the tokens and the address of the callback's render,
    and at that point the flag is raised and nothing has been recorded. *)
Theorem awaited_call_passed_every_check (r : Render) (st st' : HookState)
    (call : SwapCall) :
  executeSingleSwap r st = Awaiting call st' ->
  let currentBalance := parseFloat (orZero (r_balance r)) in
  let swapAmount := (currentBalance * (percentage (r_config r) / 100))%float in
  guards_pass r (call_address call)
  /\ (currentBalance =? 0)%float = false
  /\ (swapAmount <? 0.01)%float = false
  /\ (10000 <? swapAmount)%float = false
  /\ (currentBalance <? swapAmount)%float = false
  /\ String.eqb (address (sourceToken (r_config r))) (address (targetToken (r_config r)))
     = false
  /\ call = {| call_source := sourceToken (r_config r);
               call_target := targetToken (r_config r);
               call_amountInUSD := toFixed swapAmount 2;
               call_address := call_address call |}
  /\ st' = setIsExecutingSwap true st.
Proof.
  intros E currentBalance swapAmount.
  destruct (executeSingleSwap_cases r st)
    as [(m & H & _) | [(user & m & _ & _ & H) | (user & call' & G & P & H)]];
    rewrite H in E; try discriminate E. injection E as <- <-.
  unfold prepareSwap in P. fold currentBalance in P.
  destruct (currentBalance =? 0)%float; [discriminate P|].
  fold swapAmount in P.
  destruct (swapAmount <? 0.01)%float eqn:Hmin; [discriminate P|].
  unfold validateRealSwap in P. rewrite Hmin in P.
  destruct (10000 <? swapAmount)%float; [discriminate P|].
  destruct (String.eqb _ _); [discriminate P|].
  assert (B : parseFloat (if String.eqb (orZero (r_balance r)) "" then "0"
                          else orZero (r_balance r)) = currentBalance).
  { unfold currentBalance, orZero. destruct (r_balance r) as [b|]; [|reflexivity].
    destruct (String.eqb b "") eqn:Hb; [reflexivity|]. rewrite Hb. reflexivity. }
  rewrite B in P.
  destruct (currentBalance <? swapAmount)%float; [discriminate P|].
  injection P as <-. cbn [call_address].
  split; [exact G|]. repeat split; reflexivity.
Qed.

Lemma awaited_call_passed_every_check_witness :
  exists call st',
    executeSingleSwap (render (mounted connected)) (hook (mounted connected))
    = Awaiting call st'
    /\ call_amountInUSD call = "1.00" /\ call_address call = userAddress
    /\ isExecutingSwap st' = true /\ swapHistory st' = [].
Proof.
  eexists _, _. split; [vm_compute; reflexivity|].
  destruct (awaited_call_passed_every_check
              (render (mounted connected)) (hook (mounted connected)) _ _ eq_refl)
    as (_ & _ & _ & _ & _ & _ & _ & S).
  repeat split; reflexivity.
Defined.

(** X9. The executor never reports 'Minimum swap amount is $0.01': an
    amount below 0.01 is turned down beforehand as 'Swap amount too small
    (minimum $0.01 for reliable execution)', so the first check of
    [validateRealSwap] cannot fire from here. *)
Theorem minimum_amount_reason_never_reported (r : Render) (st : HookState) :
  match executeSingleSwap r st with
  | Resolved result _ => error result <> Some "Minimum swap amount is $0.01"
  | Awaiting _ _ => True
  end.
Proof.
  unfold executeSingleSwap.
  destruct (r_isExecutingSwap r); [discriminate|].
  destruct (r_address r) as [user|]; [|discriminate].
  destruct (_ || _); [discriminate|].
  unfold prepareSwap.
  destruct (_ =? 0)%float; [discriminate|].
  destruct (_ <? 0.01)%float eqn:Hmin; [discriminate|].
  unfold validateRealSwap. rewrite Hmin.
  destruct (10000 <? _)%float; [discriminate|].
  destruct (String.eqb _ _); [discriminate|].
  destruct (parseFloat _ <? _)%float; [cbn; discriminate | exact I].
Qed.

(** X10. A balance that does not parse to a number is not caught by any
    check: when the callback saw no attempt in flight, the wallet is
    connected and the two tokens differ, the attempt goes through to
    [executeRealSwap] with the amount 'NaN'. *)
Theorem unparsable_balance_reaches_the_swap (r : Render) (st : HookState) (user : string) :
  guards_pass r user ->
  PrimFloat.is_nan (parseFloat (orZero (r_balance r))) = true ->
  String.eqb (address (sourceToken (r_config r))) (address (targetToken (r_config r)))
  = false ->
  executeSingleSwap r st
  = Awaiting {| call_source := sourceToken (r_config r);
                call_target := targetToken (r_config r);
                call_amountInUSD := "NaN";
                call_address := user |}
             (setIsExecutingSwap true st).
Proof.
  intros (Hflag & Huser & Hne & Hsend) Hnan Hdiff.
  unfold executeSingleSwap. rewrite Hflag, Huser, Hne, Hsend. cbn [orb negb].
  assert (B : parseFloat (if String.eqb (orZero (r_balance r)) "" then "0"
                          else orZero (r_balance r)) = parseFloat (orZero (r_balance r))).
  { unfold orZero. destruct (r_balance r) as [b|]; [|reflexivity].
    destruct (String.eqb b "") eqn:Hb; [reflexivity|]. rewrite Hb. reflexivity. }
  pose proof (nan_mul_l _ (percentage (r_config r) / 100)%float Hnan) as Hamount.
  unfold prepareSwap. rewrite (nan_eqb_l _ 0%float Hnan).
  rewrite (nan_ltb_l _ 0.01%float Hamount).
  unfold validateRealSwap.
  rewrite (nan_ltb_l _ 0.01%float Hamount), (nan_ltb_r 10000%float _ Hamount), Hdiff, B.
  rewrite (nan_ltb_l _ _ Hnan).
  unfold toFixed. rewrite (is_nan_Prim2SF _ Hamount). reflexivity.
Qed.

Lemma unparsable_balance_reaches_the_swap_witness :
  exists call st',
    executeSingleSwap
      {| r_config := config (hook (mounted connected));
         r_balance := Some "NaN"; r_address := Some userAddress;
         r_sendTransaction := true; r_isExecutingSwap := false |}
      (hook (mounted connected))
    = Awaiting call st'
    /\ call_amountInUSD call = "NaN".
Proof.
  eexists _, _. split.
  - apply (unparsable_balance_reaches_the_swap _ _ userAddress);
      [repeat split | reflexivity | reflexivity].
  - reflexivity.
Defined.

(** ** Swaps that nothing stops *)







(** ** What holds in every state the interface can reach *)

(** Every action either leaves the history alone or records one outcome. *)
Lemma perform_history (a : Action) (sys : Sys) :
  swapHistory (hook (perform a sys)) = swapHistory (hook sys)
  \/ exists r l, swapHistory (hook (perform a sys)) = r :: firstn 9 l.
Proof.
  destruct a as [e | isLoading o]; cbn [perform].
  - destruct e; cbn [step].
    + unfold startDCA. destruct (isActive _); [left; reflexivity|].
      destruct (_ =? _)%float; left; reflexivity.
    + left; reflexivity.
    + unfold executeSwap.
      destruct (executeSingleSwap_cases (render sys) (hook sys))
        as [(m & H & _) | [(user & m & _ & _ & H) | (user & call & _ & _ & H)]];
        rewrite H; [left; reflexivity | right | left; reflexivity].
      eexists _, _. cbn -[firstn]. reflexivity.
    + left. cbn. unfold handleSliderChange, rerunFrequencyEffect.
      destruct (_ && _); reflexivity.
    + left. cbn. unfold handleTierChange, rerunFrequencyEffect.
      destruct (_ && _); reflexivity.
    + left; reflexivity.
    + left; reflexivity.
    + right. eexists _, _. cbn [with_hook hook]. apply swapHistory_record.
    + left; reflexivity.
    + destruct (find_timer id (timers sys)) as [[|r period]|]; try (left; reflexivity).
      unfold runSwap.
      destruct (executeSingleSwap_cases r (hook sys))
        as [(m & H & _) | [(user & m & _ & _ & H) | (user & call & _ & _ & H)]];
        rewrite H; [left; reflexivity | right | left; reflexivity].
      eexists _, _. cbn -[firstn]. reflexivity.
    + unfold settle.
      destruct (find_pending id (pending sys)) as [p|]; [|left; reflexivity].
      destruct (executeRealSwap o _ _ _ _ (world sys)) as [settled w].
      right. destruct settled as [result | thrown]; cbn -[firstn handleOnchainKitSwap];
        destruct (p_scheduled p); cbn -[firstn handleOnchainKitSwap];
        eexists _, _; apply swapHistory_record.
  - destruct (manualSwapProps sys) as [props|]; [|left; reflexivity].
    destruct (_ || _); [left; reflexivity|].
    unfold handleInvisibleSwap.
    destruct (w_address (wallet sys)) as [user|]; [|left; reflexivity].
    destruct (_ || _); [left; reflexivity|].
    destruct (executeRealSwap o _ _ _ _ (world sys)) as [settled w].
    right. eexists _, _. cbn [hook]. apply swapHistory_record.
Qed.

Lemma play_keeps_history_bounded (actions : list Action) (sys : Sys) :
  (List.length (swapHistory (hook sys)) <= 10)%nat ->
  (List.length (swapHistory (hook (play actions sys))) <= 10)%nat.
Proof.
  revert sys. induction actions as [|a actions IH]; intros sys B; [exact B|].
  apply IH.
  destruct (perform_history a sys) as [-> | (r & l & ->)]; [exact B|].
  cbn [List.length]. rewrite length_firstn. lia.
Qed.

(** X13. In every state the interface can reach from a fresh mount,
    through any sequence of hook events and manual swaps, the history
    holds at most 10 outcomes. *)
Theorem history_never_exceeds_ten (actions : list Action) (w : Wallet) :
  (List.length (swapHistory (hook (play actions (mounted w)))) <= 10)%nat.
Proof.
  apply play_keeps_history_bounded. cbn. lia.
Qed.

Lemma perform_keeps_timers_accounted (a : Action) (sys : Sys) :
  armed_as_expected sys -> armed_as_expected (perform a sys).
Proof.
  intros I. destruct a as [e | isLoading o]; cbn [perform].
  - apply step_keeps_timers_accounted. exact I.
  - destruct (manualSwapProps sys) as [props|]; [|exact I].
    destruct (_ || _); [exact I|].
    unfold handleInvisibleSwap.
    destruct (w_address (wallet sys)) as [user|]; [|exact I].
    destruct (_ || _); [exact I|].
    destruct (executeRealSwap o _ _ _ _ (world sys)) as [settled w].
    apply (armed_as_expected_ext sys); trivial.
    cbn [hook]. rewrite config_handleOnchainKitSwap. reflexivity.
Qed.

Lemma play_keeps_timers_accounted (actions : list Action) (sys : Sys) :
  armed_as_expected sys -> armed_as_expected (play actions sys).
Proof.
  revert sys. induction actions as [|a actions IH]; intros sys I; [exact I|].
  apply IH, perform_keeps_timers_accounted, I.
Qed.

Lemma mounted_timers_accounted (w : Wallet) : armed_as_expected (mounted w).
Proof. unfold armed_as_expected. cbn. repeat split. Qed.

(** X14. No timer leaks and none goes missing: in every state the
    interface can reach, a paused schedule has no timer armed and both
    handles empty, and an active schedule has exactly two timers armed, the
    countdown and the swap timer, held by the two handles. *)
Theorem timers_always_accounted_for (actions : list Action) (w : Wallet) :
  let sys := play actions (mounted w) in
  (isActive (config (hook sys)) = false ->
   timers sys = [] /\ intervalRef sys = None /\ countdownRef sys = None)
  /\ (isActive (config (hook sys)) = true ->
      exists c i r p,
        countdownRef sys = Some c /\ intervalRef sys = Some i /\ c <> i
        /\ timers sys = [(c, CountdownTimer); (i, SwapTimer r p)]).
Proof.
  intros sys.
  pose proof (play_keeps_timers_accounted actions (mounted w)
                (mounted_timers_accounted w)) as I.
  fold sys in I. unfold armed_as_expected in I.
  destruct (isActive (config (hook sys))); split; intros H;
    try discriminate H; exact I.
Qed.

(** X15. Unmounting and stopping both leave nothing armed: in every state
    the interface can reach, after the cleanup of the unmount no timer is
    armed, and after [stopDCA] no timer is armed and both handles are
    empty. *)
Theorem cleanup_and_stop_disarm (actions : list Action) (w : Wallet) :
  let sys := play actions (mounted w) in
  timers (cleanup sys) = []
  /\ timers (stopDCA sys) = []
  /\ intervalRef (stopDCA sys) = None /\ countdownRef (stopDCA sys) = None.
Proof.
  intros sys.
  pose proof (play_keeps_timers_accounted actions (mounted w)
                (mounted_timers_accounted w)) as I.
  fold sys in I. clearbody sys. unfold armed_as_expected in I.
  unfold cleanup, stopDCA. cbn [timers intervalRef countdownRef].
  destruct (isActive (config (hook sys))).
  - destruct I as (c & i & r & p & -> & -> & _ & ->).
    rewrite clearInterval_pair. repeat split.
  - destruct I as (-> & -> & ->). repeat split.
Qed.

Lemma isExecutingSwap_record (r : SwapResult) (st : HookState) :
  isExecutingSwap (handleOnchainKitSwap r st) = isExecutingSwap st.
Proof. unfold handleOnchainKitSwap. destruct (success r); reflexivity. Qed.

Lemma app_not_nil {A} (l : list A) (x : A) : (l ++ [x])%list = [] -> False.
Proof. destruct l; discriminate. Qed.

Lemma perform_keeps_flag_released (a : Action) (sys : Sys) :
  (pending sys = [] -> isExecutingSwap (hook sys) = false) ->
  pending (perform a sys) = [] -> isExecutingSwap (hook (perform a sys)) = false.
Proof.
  intros I. destruct a as [e | isLoading o]; cbn [perform].
  - destruct e; cbn [step].
    + unfold startDCA. destruct (isActive _); [exact I|].
      destruct (_ =? _)%float; exact I.
    + exact I.
    + unfold executeSwap.
      destruct (executeSingleSwap_cases (render sys) (hook sys))
        as [(m & H & _) | [(user & m & _ & _ & H) | (user & call & _ & _ & H)]];
        rewrite H; cbn [with_hook hook pending].
      * exact I.
      * intros _. unfold handleOnchainKitSwap. reflexivity.
      * intros P. destruct (app_not_nil _ _ P).
    + cbn. unfold handleSliderChange, rerunFrequencyEffect.
      destruct (_ && _); exact I.
    + cbn. unfold handleTierChange, rerunFrequencyEffect.
      destruct (_ && _); exact I.
    + exact I.
    + exact I.
    + cbn [with_hook hook pending]. rewrite isExecutingSwap_record. exact I.
    + exact I.
    + destruct (find_timer id (timers sys)) as [[|r period]|]; try exact I.
      unfold runSwap.
      destruct (executeSingleSwap_cases r (hook sys))
        as [(m & H & _) | [(user & m & _ & _ & H) | (user & call & _ & _ & H)]];
        rewrite H; cbn [with_hook hook pending].
      * exact I.
      * intros _. unfold handleOnchainKitSwap. reflexivity.
      * intros P. destruct (app_not_nil _ _ P).
    + unfold settle.
      destruct (find_pending id (pending sys)) as [p|]; [|exact I].
      destruct (executeRealSwap o _ _ _ _ (world sys)) as [settled w].
      intros _.
      pose proof (resume_releases_guard settled (hook sys)) as R.
      destruct (executeSingleSwap_resume settled (hook sys)) as [[res st] refresh].
      cbn [fst snd] in R. cbn [hook]. destruct (p_scheduled p); exact R.
  - destruct (manualSwapProps sys) as [props|]; [|exact I].
    destruct (_ || _); [exact I|].
    unfold handleInvisibleSwap.
    destruct (w_address (wallet sys)) as [user|]; [|exact I].
    destruct (_ || _); [exact I|].
    destruct (executeRealSwap o _ _ _ _ (world sys)) as [settled w].
    cbn [hook pending]. rewrite isExecutingSwap_record. exact I.
Qed.

(** X16. The in-flight flag cannot get stuck: in every state the interface
    can reach, when no attempt is waiting for [executeRealSwap] the flag
    [isExecutingSwap] is lowered. *)
Theorem flag_lowered_when_nothing_pending (actions : list Action) (w : Wallet) :
  pending (play actions (mounted w)) = [] ->
  isExecutingSwap (hook (play actions (mounted w))) = false.
Proof.
  assert (G : forall sys,
            (pending sys = [] -> isExecutingSwap (hook sys) = false) ->
            pending (play actions sys) = [] ->
            isExecutingSwap (hook (play actions sys)) = false).
  { induction actions as [|a actions IH]; intros sys I; [exact I|].
    apply IH, perform_keeps_flag_released, I. }
  apply G. reflexivity.
Qed.

Lemma flag_lowered_when_nothing_pending_witness :
  isExecutingSwap
    (hook (play [HookEvent Start; HookEvent (Fire 1); HookEvent (Settle 2 calm)]
             (mounted connected))) = false.
Proof.
  exact (flag_lowered_when_nothing_pending
           [HookEvent Start; HookEvent (Fire 1); HookEvent (Settle 2 calm)]
           connected eq_refl).
Defined.

Lemma FrequencyTier_eqb_eq (a b : FrequencyTier) : FrequencyTier_eqb a b = true -> a = b.
Proof. destruct a, b; simpl; congruence. Qed.

Lemma same_controls_follow (st st' : HookState) :
  same_controls st st' -> config_follows_controls st -> config_follows_controls st'.
Proof.
  unfold same_controls, config_follows_controls.
  intros (-> & -> & -> & ->). trivial.
Qed.

Lemma same_controls_record (r : SwapResult) (st : HookState) :
  same_controls st (handleOnchainKitSwap r st).
Proof. unfold handleOnchainKitSwap. destruct (success r); repeat split. Qed.

Lemma rerun_follows (before after : HookState) :
  config_follows_controls before ->
  config after = config before ->
  config_follows_controls (rerunFrequencyEffect before after).
Proof.
  unfold rerunFrequencyEffect, config_follows_controls. intros (F & P) C.
  destruct (PrimFloat.Leibniz.eqb _ _) eqn:Hs; cbn [andb].
  - destruct (FrequencyTier_eqb _ _) eqn:Ht.
    + apply same_number in Hs. apply FrequencyTier_eqb_eq in Ht.
      rewrite C, <- Hs, <- Ht. auto.
    + cbn. rewrite C. auto.
  - cbn. rewrite C. auto.
Qed.

Lemma perform_keeps_config_following (a : Action) (sys : Sys) :
  config_follows_controls (hook sys) -> config_follows_controls (hook (perform a sys)).
Proof.
  intros I. destruct a as [e | isLoading o]; cbn [perform].
  - destruct e; cbn [step].
    + unfold startDCA. destruct (isActive _); [exact I|].
      destruct (_ =? _)%float; exact I.
    + exact I.
    + unfold executeSwap.
      destruct (executeSingleSwap_cases (render sys) (hook sys))
        as [(m & H & _) | [(user & m & _ & _ & H) | (user & call & _ & _ & H)]];
        rewrite H; exact I.
    + cbn [with_hook hook]. unfold handleSliderChange.
      apply rerun_follows; [exact I | reflexivity].
    + cbn [with_hook hook]. unfold handleTierChange.
      apply rerun_follows; [exact I | reflexivity].
    + exact I.
    + exact I.
    + cbn [with_hook hook].
      apply (same_controls_follow (hook sys)); [apply same_controls_record | exact I].
    + exact I.
    + destruct (find_timer id (timers sys)) as [[|r period]|]; try exact I.
      unfold runSwap.
      destruct (executeSingleSwap_cases r (hook sys))
        as [(m & H & _) | [(user & m & _ & _ & H) | (user & call & _ & _ & H)]];
        rewrite H; exact I.
    + unfold settle.
      destruct (find_pending id (pending sys)) as [p|]; [|exact I].
      destruct (executeRealSwap o _ _ _ _ (world sys)) as [settled w].
      destruct settled as [result | thrown]; cbn -[handleOnchainKitSwap];
        destruct (p_scheduled p); cbn -[handleOnchainKitSwap];
        (eapply same_controls_follow; [|exact I]);
        pose proof (same_controls_record result (hook sys)) as R ||
        pose proof (same_controls_record
                      (failed match thrown with
                              | ErrorObject message => message
                              | OtherValue => "Network error"
                              end) (hook sys)) as R;
        unfold same_controls in *; cbn -[handleOnchainKitSwap]; exact R.
  - destruct (manualSwapProps sys) as [props|]; [|exact I].
    destruct (_ || _); [exact I|].
    unfold handleInvisibleSwap.
    destruct (w_address (wallet sys)) as [user|]; [|exact I].
    destruct (_ || _); [exact I|].
    destruct (executeRealSwap o _ _ _ _ (world sys)) as [settled w].
    cbn [hook].
    apply (same_controls_follow (hook sys)); [apply same_controls_record | exact I].
Qed.

Lemma play_keeps_config_following (actions : list Action) (sys : Sys) :
  config_follows_controls (hook sys) ->
  config_follows_controls (hook (play actions sys)).
Proof.
  revert sys. induction actions as [|a actions IH]; intros sys I; [exact I|].
  apply IH, perform_keeps_config_following, I.
Qed.


(** X18. Changing the tier, in any state the interface can reach, puts the
    slider back to 50 and leaves the frequency at the mapper's value for 50
    in the new tier: 1339200000 ms for days, 45000000 for hours, 1830000
    for minutes and 30500 for seconds. *)
Theorem tier_change_resets_slider (actions : list Action) (w : Wallet)
    (newTier : FrequencyTier) :
  let st := hook (perform (HookEvent (TierChange newTier)) (play actions (mounted w))) in
  sliderValue st = 50%float /\ currentTier st = newTier
  /\ frequency (config st) = calculateFrequency 50 newTier
  /\ frequency (config st)
     = match newTier with
       | days => 1339200000
       | hours => 45000000
       | minutes => 1830000
       | seconds => 30500
       end%float.
Proof.
  intros st.
  assert (S : sliderValue st = 50%float /\ currentTier st = newTier).
  { unfold st. cbn [perform step with_hook hook].
    unfold handleTierChange, rerunFrequencyEffect.
    destruct (_ && _); split; reflexivity. }
  assert (F : config_follows_controls st).
  { unfold st. apply perform_keeps_config_following, play_keeps_config_following.
    split; reflexivity. }
  destruct S as (S & T). destruct F as (F & _). rewrite S, T in F.
  repeat split; try assumption.
  rewrite F. destruct newTier; vm_compute; reflexivity.
Qed.

(** ** The countdown and the slider *)

Lemma Math_max_zero (y : number) :
  (Math_max 0 y <? 0)%float = false /\ (Math_max 0 y = 0%float \/ Math_max 0 y = y).
Proof.
  unfold Math_max. change (PrimFloat.is_nan 0) with false. cbv iota.
  destruct (PrimFloat.is_nan y) eqn:N.
  - split; [apply nan_ltb_l; exact N | right; reflexivity].
  - destruct (0 <? y)%float eqn:P.
    + split; [apply ltb_antisym; exact P | right; reflexivity].
    + change (get_sign 0) with false.
      destruct (y <? 0)%float; split; try reflexivity; left; reflexivity.
Qed.

Lemma Math_min_hundred (x : number) :
  (100 <? Math_min 100 x)%float = false.
Proof.
  unfold Math_min. change (PrimFloat.is_nan 100) with false. cbv iota.
  destruct (PrimFloat.is_nan x) eqn:N; [apply nan_ltb_r; exact N|].
  destruct (100 <? x)%float eqn:P; [reflexivity|].
  change (get_sign 100) with false.
  destruct (x <? 100)%float; exact P.
Qed.

(** [Math.max(0, y)], case by case. *)
Lemma Math_max_zero_cases (y : number) :
  ((0 <? y)%float = true -> Math_max 0 y = y)
  /\ ((y <=? 0)%float = true -> Math_max 0 y = 0%float)
  /\ (PrimFloat.is_nan y = true -> Math_max 0 y = y)
  /\ ((0 <? y)%float = true \/ (y <=? 0)%float = true \/ PrimFloat.is_nan y = true).
Proof.
  assert (L : (y <=? 0)%float = true ->
              PrimFloat.is_nan y = false /\ (0 <? y)%float = false).
  { rewrite FloatAxioms.leb_spec, FloatAxioms.ltb_spec. unfold SFleb, SFltb.
    rewrite (SFcompare_antisym (Prim2SF y) (Prim2SF 0)).
    destruct (PrimFloat.is_nan y) eqn:N.
    - rewrite (is_nan_Prim2SF y N). discriminate.
    - destruct (SFcompare (Prim2SF y) (Prim2SF 0)) as [[]|]; simpl;
        (discriminate || (intros _; split; reflexivity)). }
  unfold Math_max. change (PrimFloat.is_nan 0) with false. cbv iota.
  split; [|split; [|split]].
  - intros P. destruct (PrimFloat.is_nan y) eqn:N; [reflexivity|].
    rewrite P. reflexivity.
  - intros H. destruct (L H) as [-> ->]. change (get_sign 0) with false.
    destruct (y <? 0)%float; reflexivity.
  - intros ->. reflexivity.
  - rewrite FloatAxioms.leb_spec, FloatAxioms.ltb_spec. unfold SFleb, SFltb.
    rewrite (SFcompare_antisym (Prim2SF 0) (Prim2SF y)).
    unfold PrimFloat.is_nan. rewrite FloatAxioms.eqb_spec. unfold SFeqb.
    rewrite SFcompare_refl.
    change (Prim2SF 0) with (S754_zero false).
    destruct (Prim2SF y) as [s | s | | s m e]; simpl; auto;
      destruct s; simpl; auto.
Qed.

(** X19. A firing of the countdown timer takes 100 off [nextSwapIn] and
    stops at 0: the new value is the old one less 100 when that is above
    0, and 0 when that is 0 or below, so it is never negative; an old value
    that is NaN stays NaN.  These cases are all there are. *)
Theorem countdown_never_negative (st : HookState) :
  let less := (nextSwapIn (config st) - 100)%float in
  let after := nextSwapIn (config (countdownTick st)) in
  (after <? 0)%float = false
  /\ ((0 <? less)%float = true -> after = less)
  /\ ((less <=? 0)%float = true -> after = 0%float)
  /\ (PrimFloat.is_nan less = true -> after = less)
  /\ ((0 <? less)%float = true \/ (less <=? 0)%float = true
      \/ PrimFloat.is_nan less = true).
Proof.
  cbv zeta. cbn [countdownTick setConfig config set_nextSwapIn nextSwapIn].
  destruct (Math_max_zero (nextSwapIn (config st) - 100)%float) as (N & _).
  split; [exact N|]. exact (Math_max_zero_cases (nextSwapIn (config st) - 100)%float).
Qed.

(** X20. The value a drag of the slider hands to [onChange] is never below
    0 and never above 100, wherever the pointer is and whatever the size of
    the track. *)
Theorem dragValue_within_bounds (pointX rectLeft rectWidth : number) :
  (dragValue pointX rectLeft rectWidth <? 0)%float = false
  /\ (100 <? dragValue pointX rectLeft rectWidth)%float = false.
Proof.
  unfold dragValue.
  set (x := ((pointX - rectLeft) / rectWidth * 100)%float).
  destruct (Math_max_zero (Math_min 100 x)) as (N & [E | E]); rewrite E in N |- *.
  - split; reflexivity.
  - split; [exact N | apply Math_min_hundred].
Qed.

(** ** Reconfiguring and starting *)



(** X22. Moving the slider to a different value recomputes the frequency
    for the new value, and sets the countdown to it while the schedule is
    active and to 0 while it is paused; the timers that are armed, the
    period of the swap timer included, are left as they are. *)
Theorem slider_move_resets_countdown (value : number) (sys : Sys) :
  PrimFloat.Leibniz.eqb (sliderValue (hook sys)) value = false ->
  let moved := step (SliderChange value) sys in
  sliderValue (hook moved) = value
  /\ frequency (config (hook moved)) = calculateFrequency value (currentTier (hook sys))
  /\ nextSwapIn (config (hook moved))
     = (if isActive (config (hook sys))
        then calculateFrequency value (currentTier (hook sys)) else 0%float)
  /\ isActive (config (hook moved)) = isActive (config (hook sys))
  /\ timers moved = timers sys /\ pending moved = pending sys.
Proof.
  intros H moved. unfold moved. cbn [step with_hook hook timers pending].
  unfold handleSliderChange, rerunFrequencyEffect.
  cbn [setSliderValue sliderValue currentTier]. rewrite H. cbn [andb].
  repeat split.
Qed.

Lemma slider_move_resets_countdown_witness :
  frequency (config (hook (step (SliderChange 100) (step Start (mounted connected)))))
  = 3600000%float
  /\ nextSwapIn (config (hook (step (SliderChange 100) (step Start (mounted connected)))))
     = 3600000%float
  /\ timers (step (SliderChange 100) (step Start (mounted connected)))
     = timers (step Start (mounted connected)).
Proof.
  destruct (slider_move_resets_countdown 100 (step Start (mounted connected)) eq_refl)
    as (_ & F & N & _ & T & _).
  split; [exact F|]. split; [exact N | exact T].
Defined.

(** ** The running total *)

Lemma record_total (r : SwapResult) (st : HookState) :
  totalSwapped (handleOnchainKitSwap r st) = totalSwapped st
  \/ (success r = true
      /\ swapHistory (handleOnchainKitSwap r st) = r :: firstn 9 (swapHistory st)
      /\ totalSwapped (handleOnchainKitSwap r st)
         = (totalSwapped st + parseFloat (amountIn r))%float).
Proof.
  rewrite totalSwapped_record, swapHistory_record.
  destruct (success r); [right; repeat split | left; reflexivity].
Qed.

(** X23. The running total moves only together with a recorded success:
    whatever happens to the interface, a hook event or a manual swap,
    either the total is what it was, or a successful outcome has just been
    put at the head of the history and the total has grown by its
    amountIn. *)
Theorem total_moves_only_with_a_recorded_success (a : Action) (sys : Sys) :
  let sys' := perform a sys in
  totalSwapped (hook sys') = totalSwapped (hook sys)
  \/ exists r,
       success r = true
       /\ swapHistory (hook sys') = r :: firstn 9 (swapHistory (hook sys))
       /\ totalSwapped (hook sys')
          = (totalSwapped (hook sys) + parseFloat (amountIn r))%float.
Proof.
  cbv zeta. destruct a as [e | isLoading o]; cbn [perform].
  - destruct e; cbn [step].
    + left. apply totalSwapped_startDCA.
    + left; reflexivity.
    + left. unfold executeSwap.
      destruct (executeSingleSwap_cases (render sys) (hook sys))
        as [(m & H & _) | [(user & m & _ & _ & H) | (user & call & _ & _ & H)]];
        rewrite H; reflexivity.
    + left. cbn. unfold handleSliderChange. rewrite totalSwapped_rerun. reflexivity.
    + left. cbn. unfold handleTierChange. rewrite totalSwapped_rerun. reflexivity.
    + left; reflexivity.
    + left; reflexivity.
    + cbn [with_hook hook].
      destruct (record_total result (hook sys)) as [H | H]; [left; exact H|].
      right. exists result. exact H.
    + left; reflexivity.
    + left. destruct (find_timer id (timers sys)) as [[|r period]|]; try reflexivity.
      unfold runSwap.
      destruct (executeSingleSwap_cases r (hook sys))
        as [(m & H & _) | [(user & m & _ & _ & H) | (user & call & _ & _ & H)]];
        rewrite H; reflexivity.
    + unfold settle.
      destruct (find_pending id (pending sys)) as [p|]; [|left; reflexivity].
      destruct (executeRealSwap o _ _ _ _ (world sys)) as [settled w].
      destruct settled as [result | thrown].
      * destruct (record_total result (hook sys)) as [H | H];
          [left | right; exists result];
          cbn -[handleOnchainKitSwap firstn]; destruct (p_scheduled p); exact H.
      * left. cbn. destruct (p_scheduled p); reflexivity.
  - destruct (manualSwapProps sys) as [props|]; [|left; reflexivity].
    destruct (_ || _); [left; reflexivity|].
    unfold handleInvisibleSwap.
    destruct (w_address (wallet sys)) as [user|]; [|left; reflexivity].
    destruct (_ || _); [left; reflexivity|].
    destruct (executeRealSwap o _ _ _ _ (world sys)) as [settled w].
    cbn [hook].
    match goal with
    | |- context [handleOnchainKitSwap ?r (hook sys)] =>
        destruct (record_total r (hook sys)) as [H | H];
        [left; exact H | right; exists r; exact H]
    end.
Qed.
